(** * NutriAI API: the route handlers, embedded and verified

    The repository is a set of Next.js route handlers written in TypeScript:

    - the profile store     ([src/app/api/user/profile/route.ts], first unit),
    - the goal calculator   (same file, second unit),
    - the vision analyzer   ([src/unnamed/part_000]) and a second variant of
      the same handler      ([src/unnamed/part_001]),
    - the ingredient recalculator ([src/unnamed/part_002]).

    Every handler is embedded as a total function from its request (and, for
    the handlers that talk to the outside world, from the outcome of that
    call) to its response.  Numbers are IEEE 754 binary64 values, as they are
    in the language, so every evaluation below is the one the handler
    performs.

    The profile store and the goal calculator are embedded twice.  The
    first embedding takes a body whose fields have the types the interfaces
    of the source give them (a number, a string, a boolean) or are absent.
    The second ([ProfileStoreJson], [GoalCalculatorJson]) takes whatever
    value [request.json()] yields and converts each field where the handler
    uses it, the way the language does; on bodies of the first kind the two
    agree. *)

From Stdlib Require Import ZArith Floats Bool List String Ascii Lia.
From stdpp Require Import base option gmap strings pretty.
Import ListNotations.

Set Warnings "-inexact-float,-register-all".
Local Open Scope string_scope.

(* ===================================================================== *)
(** * The fragment of the language the handlers use *)
(* ===================================================================== *)

Module Js.

(** ** Numbers *)

(** A field of a parsed request body holds a value or is absent
    ([undefined]).  [ToNumber(undefined)] is NaN. *)
Definition to_number (v : option float) : float :=
  match v with Some x => x | None => nan end.

(** [!x] on a number: true for [+0], [-0] and NaN. *)
Definition falsy_number (x : float) : bool := is_nan x || is_zero x.

Definition falsy_num (v : option float) : bool :=
  match v with Some x => falsy_number x | None => true end.

(** [!s] on a string: true for the empty string. *)
Definition falsy_string (s : string) : bool :=
  match s with EmptyString => true | _ => false end.

Definition falsy_str (v : option string) : bool :=
  match v with Some s => falsy_string s | None => true end.

(** [a || b] on optional strings: the first truthy operand, else the
    second. *)
Definition or_str (a b : option string) : option string :=
  if falsy_str a then b else a.

(** [v === 'lit'] for a string-valued field. *)
Definition str_is (v : option string) (lit : string) : bool :=
  match v with Some s => String.eqb s lit | None => false end.

(** The property key a value turns into when it indexes an object. *)
Definition property_key (v : option string) : string :=
  match v with Some s => s | None => "undefined" end.

(** An integer with magnitude below [2^53] as a number. *)
Definition of_Z (z : Z) : float :=
  match z with
  | Z0 => 0%float
  | Zpos _ => of_uint63 (Uint63.of_Z z)
  | Zneg p => (- of_uint63 (Uint63.of_Z (Zpos p)))%float
  end.

(** [Math.round]: the integer closest to [x], ties towards [+∞]; NaN, the
    infinities and integers are returned as they are; a result of zero
    keeps the sign of [x].  For a finite [x = ±m·2^e] with [e < 0] the
    result is [⌊x + 1/2⌋], computed exactly over the integers. *)
Definition Math_round (x : float) : float :=
  match Prim2SF x with
  | S754_finite s m e =>
      if (0 <=? e)%Z then x
      else
        let n := ((if s then Zneg m else Zpos m) * 2 + 2 ^ (- e))%Z in
        let r := (n / 2 ^ (1 - e))%Z in
        if (r =? 0)%Z then (if s then (-0)%float else 0%float) else of_Z r
  | _ => x
  end.

Definition Math_abs (x : float) : float := abs x.

(** ** Property lookup on an object literal

    [TABLE[key]] on an object literal finds the literal's own entries and,
    failing that, whatever [Object.prototype] provides under that name
    (functions, and [Object.prototype] itself for [__proto__]). *)

Definition Object_prototype_keys : list string :=
  [ "constructor"; "__defineGetter__"; "__defineSetter__"; "hasOwnProperty";
    "__lookupGetter__"; "__lookupSetter__"; "isPrototypeOf";
    "propertyIsEnumerable"; "toString"; "valueOf"; "__proto__";
    "toLocaleString" ].

Inductive property (A : Type) : Type :=
| Own (a : A)              (* an entry of the literal *)
| Inherited (key : string) (* a member of Object.prototype: an object *)
| Undefined.
Arguments Own {A} a.
Arguments Inherited {A} key.
Arguments Undefined {A}.

Fixpoint own_entry {A} (table : list (string * A)) (key : string) : option A :=
  match table with
  | [] => None
  | (k, a) :: rest => if String.eqb k key then Some a else own_entry rest key
  end.

Definition get {A} (table : list (string * A)) (key : string) : property A :=
  match own_entry table key with
  | Some a => Own a
  | None =>
      if existsb (String.eqb key) Object_prototype_keys
      then Inherited key else Undefined
  end.

(** ** Strings *)

(** [s.includes(needle)] *)
Fixpoint includes (needle s : string) : bool :=
  String.prefix needle s
  || match s with
     | EmptyString => false
     | String _ rest => includes needle rest
     end.

End Js.

(* ===================================================================== *)
(** * Profile store: [GET] and [POST] of the first unit of
      [src/app/api/user/profile/route.ts] *)
(* ===================================================================== *)

Module ProfileStore.
Import Js.
Local Open Scope float_scope.

(** The eighteen fields of [interface UserProfile].  The handler copies them
    from the parsed body into the stored object as they come, so the body
    and the stored profile have the same shape; a field is [None] when it is
    [undefined]. *)
Record UserProfile : Type := {
  user_id : option string;
  gender : option string;
  birth_year : option float;
  weight_kg : option float;
  height_cm : option float;
  activity_level : option string;
  goal_type : option string;
  goal_weight_kg : option float;
  goal_weeks : option float;
  daily_calories : option float;
  macro_focus : option string;
  protein_percent : option float;
  carbs_percent : option float;
  fat_percent : option float;
  protein_grams : option float;
  carbs_grams : option float;
  fat_grams : option float;
  notifications_enabled : option bool
}.

(** [const profiles = new Map<string, UserProfile>()] *)
Abbreviation Profiles := (gmap string UserProfile).

(** The error bodies.  Each constructor is one [error] text of the source;
    an argument is the value the text interpolates. *)
Inductive Error : Type :=
| MissingUserIdParam        (* user_id não fornecido *)
| ProfileNotFound           (* Perfil não encontrado *)
| MissingUserId             (* user_id é obrigatório *)
| MissingFields             (* Campos obrigatórios faltando: ... *)
| BirthYearOutOfRange (currentYear : float)
                            (* Ano de nascimento inválido. ... *)
| TooYoung                  (* Idade mínima é 13 anos *)
| WeightOutOfRange          (* Peso deve estar entre 30 e 200 kg *)
| HeightOutOfRange          (* Altura deve estar entre 100 e 250 cm *)
| MacroSum (sum : float)    (* Soma dos macronutrientes deve ser 100%. ... *)
| Thrown (details : string). (* the [catch] blocks *)

Inductive Response : Type :=
| Found (profile : UserProfile)                               (* 200 *)
| Saved (status : Z) (profile : UserProfile) (message : string)
| Failure (status : Z) (error : Error).

Definition status (r : Response) : Z :=
  match r with
  | Found _ => 200
  | Saved st _ _ => st
  | Failure st _ => st
  end.

(** ** GET *)

(** The two places the identifier is read from. *)
Record Query : Type := {
  header_x_user_id : option string;
  param_userId : option string
}.

Definition GET (request : Query) (profiles : Profiles) : Response :=
  let userId := or_str (header_x_user_id request) (param_userId request) in
  match userId with
  | None => Failure 400 MissingUserIdParam
  | Some id =>
      if falsy_string id then Failure 400 MissingUserIdParam
      else match profiles !! id with
           | None => Failure 404 ProfileNotFound
           | Some profile => Found profile
           end
  end.

(** ** POST *)

Definition percent_sum (b : UserProfile) : float :=
  to_number (protein_percent b) + to_number (carbs_percent b)
  + to_number (fat_percent b).

(** [const profile: UserProfile = { ... }] *)
Definition make_profile (b : UserProfile) : UserProfile :=
  {| user_id := user_id b;
     gender := gender b;
     birth_year := birth_year b;
     weight_kg := weight_kg b;
     height_cm := height_cm b;
     activity_level := activity_level b;
     goal_type := goal_type b;
     goal_weight_kg := goal_weight_kg b;
     goal_weeks := goal_weeks b;
     daily_calories := daily_calories b;
     macro_focus := macro_focus b;
     protein_percent := protein_percent b;
     carbs_percent := carbs_percent b;
     fat_percent := fat_percent b;
     protein_grams := protein_grams b;
     carbs_grams := carbs_grams b;
     fat_grams := fat_grams b;
     notifications_enabled :=
       match notifications_enabled b with
       | Some v => Some v
       | None => Some true
       end |}.

(** The checks of the handler, in source order: the first that fails gives
    the error. *)
Definition validate (currentYear : float) (b : UserProfile) : option Error :=
  let age := currentYear - to_number (birth_year b) in
  if falsy_str (user_id b) then Some MissingUserId
  else if falsy_str (gender b) || falsy_num (birth_year b)
          || falsy_num (weight_kg b) || falsy_num (height_cm b)
  then Some MissingFields
  else if (to_number (birth_year b) <? 1920)
          || (currentYear <? to_number (birth_year b))
  then Some (BirthYearOutOfRange currentYear)
  else if age <? 13 then Some TooYoung
  else if (to_number (weight_kg b) <? 30) || (200 <? to_number (weight_kg b))
  then Some WeightOutOfRange
  else if (to_number (height_cm b) <? 100) || (250 <? to_number (height_cm b))
  then Some HeightOutOfRange
  else if negb (percent_sum b =? 100) then Some (MacroSum (percent_sum b))
  else None.

(** The body of the [try] block, with the map threaded through. *)
Definition handle (currentYear : float) (b : UserProfile)
    (profiles : Profiles) : Response * Profiles :=
  match validate currentYear b, user_id b with
  | Some e, _ => (Failure 400 e, profiles)
  | None, None => (Failure 400 MissingUserId, profiles) (* excluded by [validate] *)
  | None, Some key =>
      let profile := make_profile b in
      let isNew := match profiles !! key with Some _ => false | None => true end in
      (Saved (if isNew then 201 else 200) profile
         (if isNew then "Perfil criado com sucesso"
          else "Perfil atualizado com sucesso"),
       <[key := profile]> profiles)
  end.

Definition POST (currentYear : float) (request_json : string + UserProfile)
    (profiles : Profiles) : Response * Profiles :=
  match request_json with
  | inl message => (Failure 500 (Thrown message), profiles)
  | inr b => handle currentYear b profiles
  end.

(** ** The store over time *)

Inductive Request : Type :=
| Get (request : Query)
| Post (currentYear : float) (request_json : string + UserProfile).

Definition serve (profiles : Profiles) (r : Request) : Profiles :=
  match r with
  | Get _ => profiles
  | Post y b => snd (POST y b profiles)
  end.

(** The map after a sequence of requests, starting from the empty map the
    module creates when it is loaded. *)
Definition after (requests : list Request) : Profiles :=
  fold_left serve requests ∅.


(** ** Sample requests *)

Definition stored_example : UserProfile :=
  {| user_id := Some "u-1"; gender := Some "feminino";
     birth_year := Some 1990; weight_kg := Some 62; height_cm := Some 168;
     activity_level := Some "levemente_ativo"; goal_type := Some "perder";
     goal_weight_kg := Some 58; goal_weeks := Some 12;
     daily_calories := Some 1700; macro_focus := Some "equilibrado";
     protein_percent := Some 30; carbs_percent := Some 50;
     fat_percent := Some 20; protein_grams := Some 127.5;
     carbs_grams := Some 212.5; fat_grams := Some 37.8;
     notifications_enabled := None |}.

Definition by_header (id : string) : Query :=
  {| header_x_user_id := Some id; param_userId := None |}.

Definition off_by_one_example : UserProfile :=
  {| user_id := Some "u-1"; gender := Some "feminino";
     birth_year := Some 1990; weight_kg := Some 62; height_cm := Some 168;
     activity_level := Some "levemente_ativo"; goal_type := Some "perder";
     goal_weight_kg := Some 58; goal_weeks := Some 12;
     daily_calories := Some 1700; macro_focus := Some "personalizado";
     protein_percent := Some 30; carbs_percent := Some 50;
     fat_percent := Some 21; protein_grams := Some 127.5;
     carbs_grams := Some 212.5; fat_grams := Some 37.8;
     notifications_enabled := Some false |}.

End ProfileStore.

(* ===================================================================== *)
(** * Goal calculator: [POST] of the second unit of
      [src/app/api/user/profile/route.ts] *)
(* ===================================================================== *)

Module GoalCalculator.
Import Js.
Local Open Scope float_scope.

(** The fields the handler destructures from the parsed body.  A field is
    [None] when the body does not carry it. *)
Record Body : Type := {
  gender : option string;
  birth_year : option float;
  weight_kg : option float;
  height_cm : option float;
  activity_level : option string;
  goal_type : option string;
  goal_weight_kg : option float;
  goal_weeks : option float;
  macro_focus : option string
}.

Definition ACTIVITY_MULTIPLIERS : list (string * float) :=
  [ ("sedentario", 1.2);
    ("levemente_ativo", 1.375);
    ("moderadamente_ativo", 1.55);
    ("muito_ativo", 1.725);
    ("super_ativo", 1.9) ].

Record Preset : Type := { protein : float; carbs : float; fat : float }.

Definition equilibrado : Preset := {| protein := 30; carbs := 50; fat := 20 |}.

Definition MACRO_PRESETS : list (string * Preset) :=
  [ ("equilibrado", equilibrado);
    ("perda_gordura", {| protein := 35; carbs := 40; fat := 25 |});
    ("ganho_massa", {| protein := 35; carbs := 45; fat := 20 |});
    ("baixo_carb", {| protein := 30; carbs := 30; fat := 40 |});
    ("cetogenico", {| protein := 25; carbs := 5; fat := 70 |}) ].

(** The advisory messages.  Each constructor is one template of the source;
    its argument is the value the template interpolates. *)
Inductive Warning : Type :=
| TooFast (rate : float)
    (* Taxa de mudança de peso muito rápida (${rate.toFixed(2)} kg/semana)... *)
| TooSlow (rate : float)
    (* Taxa de mudança de peso muito lenta (${rate.toFixed(2)} kg/semana)... *)
| CaloriesAtMinimum (bound : float)
    (* Calorias ajustadas para o mínimo seguro (${bound} kcal/dia) *)
| CaloriesAtMaximum (bound : float)
    (* Calorias ajustadas para o máximo recomendado (${bound} kcal/dia) *)
| GoalBmiLow
    (* IMC meta está abaixo do peso saudável (< 18.5)... *)
| GoalBmiHigh.
    (* IMC meta está acima do peso saudável (> 30)... *)

(** ** The locals of the handler, in source order

    [currentYear] is [new Date().getFullYear()].  The comparison [a > b] of
    the source is written [b <? a]. *)

Section Locals.
Variable currentYear : float.
Variable body : Body.

Definition age : float := currentYear - to_number (birth_year body).

Definition height_m : float := to_number (height_cm body) / 100.
Definition bmi_current : float :=
  to_number (weight_kg body) / (height_m * height_m).
Definition bmi_goal : float :=
  to_number (goal_weight_kg body) / (height_m * height_m).

Definition tmb : float :=
  if str_is (gender body) "masculino"
  then (10 * to_number (weight_kg body)) + (6.25 * to_number (height_cm body))
       - (5 * age) + 5
  else (10 * to_number (weight_kg body)) + (6.25 * to_number (height_cm body))
       - (5 * age) - 161.

Definition multiplier : property float :=
  get ACTIVITY_MULTIPLIERS (property_key (activity_level body)).

(** [!multiplier] *)
Definition no_multiplier : bool :=
  match multiplier with
  | Own m => falsy_number m
  | Inherited _ => false
  | Undefined => true
  end.

(** [multiplier] as the operand of [*]: an inherited member is an object,
    whose numeric value is NaN. *)
Definition multiplier_number : float :=
  match multiplier with
  | Own m => m
  | Inherited _ => nan
  | Undefined => nan
  end.

Definition tdee : float := tmb * multiplier_number.

Definition weight_change_kg : float :=
  to_number (goal_weight_kg body) - to_number (weight_kg body).
Definition kg_per_week : float :=
  weight_change_kg / to_number (goal_weeks body).

Definition calorie_adjustment_per_day : float := (kg_per_week * 7700) / 7.

(** [daily_calories] as first assigned, before the safety limits. *)
Definition daily_calories_0 : float :=
  Math_round (tdee + calorie_adjustment_per_day).

Definition min_calories : float :=
  if str_is (gender body) "masculino" then 1500 else 1200.
Definition max_calories : float := 5000.

(** The [if / else if] that applies the limits: the final [daily_calories]
    and [calorie_warning] ([None] for the empty string). *)
Definition limited : float * option Warning :=
  if daily_calories_0 <? min_calories
  then (min_calories, Some (CaloriesAtMinimum min_calories))
  else if max_calories <? daily_calories_0
  then (max_calories, Some (CaloriesAtMaximum max_calories))
  else (daily_calories_0, None).

Definition daily_calories : float := fst limited.
Definition calorie_warning : option Warning := snd limited.

(** [MACRO_PRESETS[macro_focus] || MACRO_PRESETS.equilibrado] *)
Definition macros_percent : property Preset :=
  match get MACRO_PRESETS (property_key (macro_focus body)) with
  | Own p => Own p
  | Inherited k => Inherited k
  | Undefined => Own equilibrado
  end.

(** [macros_percent.protein] and its siblings: [undefined] on an object
    that is not a preset. *)
Definition percent (field : Preset -> float) : option float :=
  match macros_percent with
  | Own p => Some (field p)
  | _ => None
  end.

Definition protein_calories : float :=
  daily_calories * (to_number (percent protein) / 100).
Definition carbs_calories : float :=
  daily_calories * (to_number (percent carbs) / 100).
Definition fat_calories : float :=
  daily_calories * (to_number (percent fat) / 100).

Definition protein_grams : float := protein_calories / 4.
Definition carbs_grams : float := carbs_calories / 4.
Definition fat_grams : float := fat_calories / 9.

Definition rate_warning : list Warning :=
  if 1 <? Math_abs kg_per_week then [TooFast (Math_abs kg_per_week)]
  else if Math_abs kg_per_week <? 0.25 then [TooSlow (Math_abs kg_per_week)]
  else [].

Definition calorie_warning_pushed : list Warning :=
  match calorie_warning with Some w => [w] | None => [] end.

Definition bmi_warning : list Warning :=
  if bmi_goal <? 18.5 then [GoalBmiLow]
  else if 30 <? bmi_goal then [GoalBmiHigh]
  else [].

(** The three groups are pushed in this order. *)
Definition warnings : list Warning :=
  rate_warning ++ calorie_warning_pushed ++ bmi_warning.

End Locals.

Definition getBMICategory (bmi : float) : string :=
  if bmi <? 18.5 then "Abaixo do peso"
  else if bmi <? 25 then "Peso normal"
  else if bmi <? 30 then "Sobrepeso"
  else "Obesidade".

(** ** The response *)

Record Macro : Type := {
  grams : float;
  percent_of : option float;
  calories : float
}.

(** The [calculations] object.  Of [estimated_completion_date] the record
    keeps the time value, in milliseconds since the epoch, whose calendar
    day the handler prints. *)
Record Calculations : Type := {
  r_age : float;
  r_bmi_current : float;
  r_bmi_current_category : string;
  r_bmi_goal : float;
  r_bmi_goal_category : string;
  r_tmb : float;
  r_tdee : float;
  r_weight_change_kg : float;
  r_kg_per_week : float;
  r_goal_type : string;
  r_daily_calories : float;
  r_calorie_adjustment : float;
  r_protein : Macro;
  r_carbs : Macro;
  r_fat : Macro;
  r_warnings : list Warning;
  r_estimated_completion_time : float
}.

Inductive Response : Type :=
| Success (calculations : Calculations)                (* status 200 *)
| Failure (status : Z) (error : string) (details : option string).

(** One entry of [macros]: [{ grams, percent, calories }]. *)
Definition macro (g : float) (p : option float) (c : float) : Macro :=
  {| grams := Math_round (g * 10) / 10;
     percent_of := p;
     calories := Math_round c |}.

(** [Date.now() + goal_weeks * 7 * 24 * 60 * 60 * 1000]; [now] is
    [Date.now()]. *)
Definition completion_time (now : float) (body : Body) : float :=
  now + to_number (goal_weeks body) * 7 * 24 * 60 * 60 * 1000.

(** [new Date(t)] is a valid date when [t] is finite and at most 8.64e15 ms
    away from the epoch; [toISOString] throws a [RangeError] on any other. *)
Definition valid_time (t : float) : bool :=
  is_finite t && (abs t <=? 8.64e15).

Definition calculations (currentYear now : float) (body : Body) : Calculations :=
  let wc := weight_change_kg body in
  {| r_age := age currentYear body;
     r_bmi_current := Math_round (bmi_current body * 10) / 10;
     r_bmi_current_category := getBMICategory (bmi_current body);
     r_bmi_goal := Math_round (bmi_goal body * 10) / 10;
     r_bmi_goal_category := getBMICategory (bmi_goal body);
     r_tmb := Math_round (tmb currentYear body);
     r_tdee := Math_round (tdee currentYear body);
     r_weight_change_kg := Math_round (wc * 10) / 10;
     r_kg_per_week := Math_round (kg_per_week body * 100) / 100;
     r_goal_type :=
       if 0 <? wc then "ganhar" else if wc <? 0 then "perder" else "manter";
     r_daily_calories := daily_calories currentYear body;
     r_calorie_adjustment := Math_round (calorie_adjustment_per_day body);
     r_protein := macro (protein_grams currentYear body)
                    (percent body protein)
                    (protein_calories currentYear body);
     r_carbs := macro (carbs_grams currentYear body)
                  (percent body carbs)
                  (carbs_calories currentYear body);
     r_fat := macro (fat_grams currentYear body)
                (percent body fat)
                (fat_calories currentYear body);
     r_warnings := warnings currentYear body;
     r_estimated_completion_time := completion_time now body |}.

(** The body of the [try] block, and the [catch] clause for the one
    statement of it that can throw. *)
Definition handle (currentYear now : float) (body : Body) : Response :=
  if falsy_str (gender body) || falsy_num (birth_year body)
     || falsy_num (weight_kg body) || falsy_num (height_cm body)
     || falsy_str (activity_level body)
  then Failure 400
         "Campos obrigatórios faltando: gender, birth_year, weight_kg, height_cm, activity_level"
         None
  else if falsy_num (goal_weight_kg body) || falsy_num (goal_weeks body)
  then Failure 400 "Campos de meta faltando: goal_weight_kg, goal_weeks" None
  else if age currentYear body <? 13
  then Failure 400 "Idade mínima é 13 anos" None
  else if no_multiplier body
  then Failure 400 "Nível de atividade inválido" None
  else if valid_time (completion_time now body)
  then Success (calculations currentYear now body)
  else Failure 500 "Erro ao calcular metas" (Some "Invalid time value").

(** [POST]: [request.json()] either throws (with a message) or yields the
    body; whatever is thrown inside [try] is answered with status 500. *)
Definition POST (currentYear now : float) (request_json : string + Body)
    : Response :=
  match request_json with
  | inl message => Failure 500 "Erro ao calcular metas" (Some message)
  | inr body => handle currentYear now body
  end.

(** ** Vocabulary of the statements *)

(** What a successful answer tells about the request. *)
Record accepted (currentYear now : float) (body : Body) : Prop := {
  acc_gender : falsy_str (gender body) = false;
  acc_birth_year : falsy_num (birth_year body) = false;
  acc_weight_kg : falsy_num (weight_kg body) = false;
  acc_height_cm : falsy_num (height_cm body) = false;
  acc_activity_level : falsy_str (activity_level body) = false;
  acc_goal_weight_kg : falsy_num (goal_weight_kg body) = false;
  acc_goal_weeks : falsy_num (goal_weeks body) = false;
  acc_age : (age currentYear body <? 13) = false;
  acc_multiplier : no_multiplier body = false;
  acc_time : valid_time (completion_time now body) = true
}.

Definition is_too_fast (w : Warning) : bool :=
  match w with TooFast _ => true | _ => false end.
Definition is_too_slow (w : Warning) : bool :=
  match w with TooSlow _ => true | _ => false end.
Definition is_goal_bmi (w : Warning) : bool :=
  match w with GoalBmiLow | GoalBmiHigh => true | _ => false end.

(** The answer carries a warning of the given kind. *)
Definition warned (kind : Warning -> bool) (c : Calculations) : bool :=
  existsb kind (r_warnings c).

(** [x] lies outside the interval [[18.5, 30)]. *)
Definition outside_18_5_to_30 (x : float) : bool :=
  negb ((18.5 <=? x) && (x <? 30)).

Definition with_goal_type (g : option string) (b : Body) : Body :=
  {| gender := gender b; birth_year := birth_year b;
     weight_kg := weight_kg b; height_cm := height_cm b;
     activity_level := activity_level b; goal_type := g;
     goal_weight_kg := goal_weight_kg b; goal_weeks := goal_weeks b;
     macro_focus := macro_focus b |}.

(** ** Sample requests *)

(** [Date.now()] at noon (UTC) of 2 November 2026. *)
Definition noon : float := 1793620800000.

Definition example_request : Body :=
  {| gender := Some "masculino"; birth_year := Some 1996;
     weight_kg := Some 70; height_cm := Some 175;
     activity_level := Some "sedentario"; goal_type := Some "perder";
     goal_weight_kg := Some 65; goal_weeks := Some 10;
     macro_focus := Some "cetogenico" |}.

(** A request every check of the handler accepts, from a person whose
    weight is far beyond what a number can carry through the formulas. *)
Definition overflowing_request : Body :=
  {| gender := Some "masculino"; birth_year := Some 1996;
     weight_kg := Some 1e308; height_cm := Some 175;
     activity_level := Some "sedentario"; goal_type := Some "perder";
     goal_weight_kg := Some 70; goal_weeks := Some 10;
     macro_focus := Some "equilibrado" |}.

Definition ketogenic_request : Body :=
  {| gender := Some "masculino"; birth_year := Some 1996;
     weight_kg := Some 70; height_cm := Some 175;
     activity_level := Some "sedentario"; goal_type := Some "ganhar";
     goal_weight_kg := Some 71; goal_weeks := Some 52;
     macro_focus := Some "cetogenico" |}.

(** A request whose [macro_focus] is the name of a member every object
    inherits. *)
Definition inherited_focus_request : Body :=
  {| gender := Some "masculino"; birth_year := Some 1996;
     weight_kg := Some 70; height_cm := Some 175;
     activity_level := Some "sedentario"; goal_type := Some "ganhar";
     goal_weight_kg := Some 71; goal_weeks := Some 52;
     macro_focus := Some "constructor" |}.

(** A goal of 120 kg at 2 m: a goal BMI of exactly 30. *)
Definition bmi_30_request : Body :=
  {| gender := Some "masculino"; birth_year := Some 1996;
     weight_kg := Some 130; height_cm := Some 200;
     activity_level := Some "sedentario"; goal_type := Some "perder";
     goal_weight_kg := Some 120; goal_weeks := Some 20;
     macro_focus := Some "equilibrado" |}.

Definition zero_weeks_request : Body :=
  {| gender := Some "masculino"; birth_year := Some 1996;
     weight_kg := Some 70; height_cm := Some 175;
     activity_level := Some "sedentario"; goal_type := Some "perder";
     goal_weight_kg := Some 65; goal_weeks := Some 0;
     macro_focus := Some "equilibrado" |}.

End GoalCalculator.

(* ===================================================================== *)
(** * Vision analyzer: [POST] of [src/unnamed/part_000], and the variant of
      the same handler in [src/unnamed/part_001] *)
(* ===================================================================== *)

(** What the two variants share: the values that flow through them. *)
Module Upstream.
Import Js.

(** A value [JSON.parse] returns. *)
Inductive json : Type :=
| JNull
| JBool (b : bool)
| JNumber (x : float)
| JString (s : string)
| JArray (items : list json)
| JObject (members : list (string * json)).

(** What a [catch] clause receives: an [Error] with its message, or any
    other thrown value. *)
Inductive Thrown : Type :=
| ErrorObject (message : string)
| OtherValue.

(** A computation inside [try]: it throws or it yields a value. *)
Definition Try (A : Type) : Type := Thrown + A.
Definition ret {A} (a : A) : Try A := inr a.
Definition throw {A} (e : Thrown) : Try A := inl e.
Definition bind {A B} (m : Try A) (k : A -> Try B) : Try B :=
  match m with
  | inl e => inl e
  | inr a => k a
  end.

Declare Scope try_scope.
Delimit Scope try_scope with try.
Notation "x <- m ;; k" := (bind m (fun x => k))
  (at level 62, m at next level, right associativity) : try_scope.

(** [value.name]: reading a property of [null] throws a [TypeError]; an
    object yields its member (the last one of that name, as [JSON.parse]
    keeps it), everything else yields [undefined]. *)
Fixpoint last_member (members : list (string * json)) (name : string)
    : option json :=
  match members with
  | [] => None
  | (k, v) :: rest =>
      match last_member rest name with
      | Some w => Some w
      | None => if String.eqb k name then Some v else None
      end
  end.

Definition read (value : json) (name : string) : Try (option json) :=
  match value with
  | JNull =>
      throw (ErrorObject
               ("Cannot read properties of null (reading '" ++ name ++ "')"))
  | JObject members => ret (last_member members name)
  | _ => ret None
  end.

(** [!v] for a value read off a parsed result. *)
Definition falsy (v : option json) : bool :=
  match v with
  | None => true
  | Some JNull => true
  | Some (JBool b) => negb b
  | Some (JNumber x) => falsy_number x
  | Some (JString s) => falsy_string s
  | Some (JArray _) => false
  | Some (JObject _) => false
  end.

(** The part of the chat completion the handlers read. *)
Record Usage : Type := {
  prompt_tokens : N;
  completion_tokens : N;
  total_tokens : N
}.

Record Choice : Type := {
  content : option string;   (* [message.content], [None] for [null] *)
  finish_reason : string
}.

Record ChatCompletion : Type := {
  model : string;
  choices : list Choice;
  usage : option Usage
}.

(** [response.choices[0]], as the operand of a property read. *)
Definition first_choice (r : ChatCompletion) : Try Choice :=
  match choices r with
  | c :: _ => ret c
  | [] =>
      throw (ErrorObject
               "Cannot read properties of undefined (reading 'message')")
  end.

Record Body : Type := {
  image : option string;
  userId : option string
}.

Record Debug : Type := {
  debug_model : string;
  debug_finish_reason : string;
  debug_usage : option Usage
}.

Inductive Response : Type :=
| Analysis (result : json)                             (* status 200 *)
| Failure (status : Z) (error : string) (details : option string)
          (debug : option Debug) (raw_response : option json).

Definition status (r : Response) : Z :=
  match r with
  | Analysis _ => 200
  | Failure st _ _ _ _ => st
  end.

Definition debug_of (r : Response) : option Debug :=
  match r with
  | Analysis _ => None
  | Failure _ _ _ d _ => d
  end.

Definition error_of (r : Response) : option string :=
  match r with
  | Analysis _ => None
  | Failure _ e _ _ _ => Some e
  end.

Definition details_of (r : Response) : option string :=
  match r with
  | Analysis _ => None
  | Failure _ _ d _ _ => d
  end.

(** ** [String.prototype.trim]

    Strings are kept in UTF-8.  [trim] removes the white space and line
    terminators of the language from both ends: the six ASCII ones, U+00A0,
    U+1680, U+2000 to U+200A, U+2028, U+2029, U+202F, U+205F, U+3000 and
    U+FEFF. *)

Definition code (c : ascii) : N := N_of_ascii c.

Definition space1 (c : ascii) : bool :=
  let n := code c in
  ((9 <=? n) && (n <=? 13))%N || (n =? 32)%N.

Definition space2 (c1 c2 : ascii) : bool :=
  ((code c1 =? 194) && (code c2 =? 160))%N.

Definition space3 (c1 c2 c3 : ascii) : bool :=
  let a := code c1 in let b := code c2 in let c := code c3 in
  ((a =? 225) && (b =? 154) && (c =? 128))%N
  || ((a =? 226) && (b =? 128)
      && (((128 <=? c) && (c <=? 138)) || (c =? 168) || (c =? 169)
          || (c =? 175)))%N
  || ((a =? 226) && (b =? 129) && (c =? 159))%N
  || ((a =? 227) && (b =? 128) && (c =? 128))%N
  || ((a =? 239) && (b =? 187) && (c =? 191))%N.

Fixpoint trimStart (s : string) : string :=
  match s with
  | EmptyString => s
  | String c1 r1 =>
      if space1 c1 then trimStart r1
      else match r1 with
           | EmptyString => s
           | String c2 r2 =>
               if space2 c1 c2 then trimStart r2
               else match r2 with
                    | EmptyString => s
                    | String c3 r3 =>
                        if space3 c1 c2 c3 then trimStart r3 else s
                    end
           end
  end.

Fixpoint reversed (s acc : string) : string :=
  match s with
  | EmptyString => acc
  | String c r => reversed r (String c acc)
  end.

(** [trimStart] on the string read backwards. *)
Fixpoint trimStart_backwards (s : string) : string :=
  match s with
  | EmptyString => s
  | String c1 r1 =>
      if space1 c1 then trimStart_backwards r1
      else match r1 with
           | EmptyString => s
           | String c2 r2 =>
               if space2 c2 c1 then trimStart_backwards r2
               else match r2 with
                    | EmptyString => s
                    | String c3 r3 =>
                        if space3 c3 c2 c1 then trimStart_backwards r3 else s
                    end
           end
  end.

Definition trimEnd (s : string) : string :=
  reversed (trimStart_backwards (reversed s "")) "".

Definition trim (s : string) : string := trimEnd (trimStart s).

(** ** The markers looked for in the message of a failed call *)

Definition auth_marker (message : string) : bool :=
  includes "401" message || includes "Unauthorized" message.
Definition rate_marker (message : string) : bool :=
  includes "429" message || includes "Rate limit" message.
Definition quota_marker (message : string) : bool :=
  includes "quota" message || includes "insufficient_quota" message.

End Upstream.

(** ** [src/unnamed/part_000] *)

Module VisionAnalyzer.
Import Js Upstream.

Section Handler.
(** [JSON.parse]: the message of the [SyntaxError] it throws, or the value. *)
Variable JSON_parse : string -> string + json.

Definition parse (text : string) : Try json :=
  match JSON_parse text with
  | inl message => throw (ErrorObject message)
  | inr v => ret v
  end.

(** [!content || content.trim() === '' || content === '{}'] *)
Definition empty_content (content : option string) : bool :=
  match content with
  | None => true
  | Some s => falsy_string s || String.eqb (trim s) "" || String.eqb s "{}"
  end.

(** The response to an empty answer of the model. *)
Definition upstream_empty (response : ChatCompletion) (choice : Choice)
    : Response :=
  Failure 500 "A análise não pôde ser concluída"
    (Some "OpenAI retornou resposta vazia. Possíveis causas: créditos esgotados, rate limit atingido ou problema com a API Key.")
    (Some {| debug_model := model response;
             debug_finish_reason := finish_reason choice;
             debug_usage := usage response |})
    None.

(** The body of [try].  [completion] is what awaiting
    [openai.chat.completions.create] gives for this request. *)
Definition attempt (request_json : Try Body)
    (completion : Try ChatCompletion) : Try Response :=
  (body <- request_json ;;
   if falsy_str (image body)
   then ret (Failure 400
               ("Campo " ++ String "034" "image" ++ String "034" " é obrigatório")
               None None None)
   else
   response <- completion ;;
   choice <- first_choice response ;;
   if empty_content (content choice)
   then ret (upstream_empty response choice)
   else
   match content choice with
   | None => ret (upstream_empty response choice) (* excluded by the test *)
   | Some text =>
       analysisResult <- parse text ;;
       calorias_totais <- read analysisResult "calorias_totais" ;;
       if negb (falsy calorias_totais) then ret (Analysis analysisResult)
       else
       nome_do_prato <- read analysisResult "nome_do_prato" ;;
       if falsy nome_do_prato
       then ret (Failure 500 "Resposta inválida da análise"
                   (Some "A análise não retornou os campos nutricionais esperados.")
                   None (Some analysisResult))
       else ret (Analysis analysisResult)
   end)%try.

(** The [catch] clause. *)
Definition recover (error : Thrown) : Response :=
  match error with
  | ErrorObject message =>
      if includes "401" message || includes "Unauthorized" message
      then Failure 500 "Erro de autenticação com OpenAI"
             (Some "API Key inválida ou expirada. Verifique as configurações.")
             None None
      else if includes "429" message || includes "Rate limit" message
      then Failure 429 "Limite de requisições atingido"
             (Some "Muitas requisições em pouco tempo. Aguarde alguns instantes e tente novamente.")
             None None
      else if includes "quota" message || includes "insufficient_quota" message
      then Failure 500 "Créditos esgotados"
             (Some "Sem créditos disponíveis na conta OpenAI. Adicione créditos para continuar.")
             None None
      else Failure 500 "Ocorreu um erro ao analisar a imagem." (Some message)
             None None
  | OtherValue =>
      Failure 500 "Ocorreu um erro ao analisar a imagem."
        (Some "Erro desconhecido") None None
  end.

Definition POST (request_json : Try Body)
    (completion : Try ChatCompletion) : Response :=
  match attempt request_json completion with
  | inr response => response
  | inl error => recover error
  end.

End Handler.
End VisionAnalyzer.

(** ** [src/unnamed/part_001] *)

Module VisionAnalyzer_part_001.
Import Js Upstream.

Section Handler.
Variable JSON_parse : string -> string + json.

Definition parse (text : string) : Try json :=
  match JSON_parse text with
  | inl message => throw (ErrorObject message)
  | inr v => ret v
  end.

(** [response.choices[0].message.content || '{}'] *)
Definition content_or_braces (content : option string) : string :=
  match or_str content (Some "{}") with
  | Some s => s
  | None => "{}"
  end.

Definition attempt (request_json : Try Body)
    (completion : Try ChatCompletion) : Try Response :=
  (body <- request_json ;;
   if falsy_str (image body)
   then ret (Failure 400
               ("Campo " ++ String "034" "image" ++ String "034" " é obrigatório")
               None None None)
   else
   response <- completion ;;
   choice <- first_choice response ;;
   analysisResult <- parse (content_or_braces (content choice)) ;;
   (* the log line reads [analysisResult.nome_do_prato] *)
   _ <- read analysisResult "nome_do_prato" ;;
   ret (Analysis analysisResult))%try.

(** The [catch] clause. *)
Definition recover (error : Thrown) : Response :=
  match error with
  | ErrorObject message =>
      Failure 500 "Ocorreu um erro ao analisar a imagem." (Some message)
        None None
  | OtherValue =>
      Failure 500 "Ocorreu um erro ao analisar a imagem."
        (Some "Erro desconhecido") None None
  end.

Definition POST (request_json : Try Body)
    (completion : Try ChatCompletion) : Response :=
  match attempt request_json completion with
  | inr response => response
  | inl error => recover error
  end.

End Handler.
End VisionAnalyzer_part_001.

(** ** Sample requests and answers of the model *)

Module VisionSamples.
Import Js Upstream.

(** A stand-in for [JSON.parse], right on the one text the examples parse. *)
Definition parse_braces (text : string) : string + json :=
  if String.eqb text "{}" then inr (JObject [])
  else inl "Unexpected end of JSON input".

Definition photo : Body :=
  {| image := Some "https://example.com/prato.jpg"; userId := Some "u-1" |}.

Definition answer (text : option string) : ChatCompletion :=
  {| model := "gpt-4o";
     choices := [ {| content := text; finish_reason := "length" |} ];
     usage := Some {| prompt_tokens := 1105; completion_tokens := 0;
                      total_tokens := 1105 |} |}.

Definition quota_message : string :=
  "429 You exceeded your current quota, please check your plan and billing details.".

(** The messages of a rate limit and of a wrong key. *)
Definition rate_limit_message : string :=
  "429 Rate limit reached for gpt-4o on requests per min. Limit: 3 / min.".

Definition auth_message : string :=
  "401 Incorrect API key provided.".

End VisionSamples.

(* ===================================================================== *)
(** * Ingredient recalculator: [POST] of [src/unnamed/part_002] *)
(* ===================================================================== *)

Module Recalculator.
Import Js Upstream.

(** The [ingredientes] field of the body: absent (or any falsy value),
    something that is not an array, or an array of strings. *)
Inductive Ingredientes : Type :=
| NoIngredientes
| NotAnArray
| Items (items : list string).

Definition dq : string := String "034" "".

Definition prompt_head : string :=
  "Você é um nutricionista especializado. Recalcule os valores nutricionais TOTAIS do prato baseado EXATAMENTE nos ingredientes fornecidos abaixo.

INGREDIENTES DO PRATO:
".

Definition prompt_tail : string :=
  "

INSTRUÇÕES:
1. Analise cada ingrediente e estime a quantidade mais provável
2. Calcule os valores nutricionais de cada ingrediente
3. Some todos os valores para obter o TOTAL do prato
4. Retorne APENAS um JSON válido, sem texto adicional

FORMATO DE RESPOSTA (JSON):
{
  " ++ dq ++
  "nome_do_prato" ++ dq ++
  ": " ++ dq ++
  "Nome descritivo do prato" ++ dq ++
  ",
  " ++ dq ++
  "calorias_totais" ++ dq ++
  ": número (kcal totais do prato),
  " ++ dq ++
  "proteinas_g" ++ dq ++
  ": número (gramas totais),
  " ++ dq ++
  "carboidratos_g" ++ dq ++
  ": número (gramas totais),
  " ++ dq ++
  "gorduras_g" ++ dq ++
  ": número (gramas totais),
  " ++ dq ++
  "fibras_g" ++ dq ++
  ": número (gramas totais),
  " ++ dq ++
  "ingredientes_identificados" ++ dq ++
  ": [
    {
      " ++ dq ++
  "nome" ++ dq ++
  ": " ++ dq ++
  "nome do ingrediente" ++ dq ++
  ",
      " ++ dq ++
  "quantidade_estimada" ++ dq ++
  ": " ++ dq ++
  "quantidade com unidade" ++ dq ++
  ",
      " ++ dq ++
  "calorias" ++ dq ++
  ": número,
      " ++ dq ++
  "proteinas_g" ++ dq ++
  ": número,
      " ++ dq ++
  "carboidratos_g" ++ dq ++
  ": número,
      " ++ dq ++
  "gorduras_g" ++ dq ++
  ": número,
      " ++ dq ++
  "fibras_g" ++ dq ++
  ": número
    }
  ],
  " ++ dq ++
  "observacoes" ++ dq ++
  ": " ++ dq ++
  "Observações sobre estimativas ou considerações nutricionais" ++ dq ++
  "
}".

(** [items.join(sep)] *)
Fixpoint join (sep : string) (items : list string) : string :=
  match items with
  | [] => ""
  | [x] => x
  | x :: rest => x ++ sep ++ join sep rest
  end.

Definition newline : string := String "010" "".

(** [ingredientes.map((ing, idx) => `${idx + 1}. ${ing}`)] *)
Definition numbered (items : list string) : list string :=
  imap (fun idx ing => pretty (S idx) ++ ". " ++ ing) items.

Definition prompt (items : list string) : string :=
  prompt_head ++ join newline (numbered items) ++ prompt_tail.

(** [completion.choices[0].message.content?.trim() || ''] *)
Definition responseText (content : option string) : string :=
  match content with
  | Some s => trim s
  | None => ""
  end.

Section Handler.
(** [JSON.parse], and the call to the model as a function of the prompt. *)
Variable JSON_parse : string -> string + json.
Variable create : string -> Try ChatCompletion.

Definition parse (text : string) : Try json :=
  match JSON_parse text with
  | inl message => throw (ErrorObject message)
  | inr v => ret v
  end.

Definition attempt (request_json : Try Ingredientes) : Try Response :=
  (ingredientes <- request_json ;;
   match ingredientes with
   | Items (first :: rest) =>
       completion <- create (prompt (first :: rest)) ;;
       choice <- first_choice completion ;;
       nutritionalData <- parse (responseText (content choice)) ;;
       (* the log line reads [nutritionalData.nome_do_prato] *)
       _ <- read nutritionalData "nome_do_prato" ;;
       ret (Analysis nutritionalData)
   | _ =>
       ret (Failure 400 "Lista de ingredientes é obrigatória" None None None)
   end)%try.

(** The [catch] clause: [details] is [error.message], which a thrown value
    that is not an [Error] does not have. *)
Definition recover (error : Thrown) : Response :=
  Failure 500 "Erro ao recalcular valores nutricionais"
    match error with
    | ErrorObject message => Some message
    | OtherValue => None
    end
    None None.

Definition POST (request_json : Try Ingredientes) : Response :=
  match attempt request_json with
  | inr response => response
  | inl error => recover error
  end.

End Handler.

(** ** Sample requests *)

Definition salad : list string := ["alface"; "tomate 100g"; "azeite 1 colher"].

Definition answers (text : option string) (prompt : string)
    : Try ChatCompletion :=
  inr {| model := "gpt-4.1-mini";
         choices := [ {| content := text; finish_reason := "stop" |} ];
         usage := None |}.

Definition parse_object (text : string) : string + json :=
  if String.eqb text "{}" then inr (JObject [])
  else if String.eqb text "null" then inr JNull
  else inl "Unexpected end of JSON input".

End Recalculator.

(* ===================================================================== *)
(** * Vocabulary and samples of the further statements *)
(* ===================================================================== *)

(** The ways through the vision handler. *)
Module VisionRuns.
Import Js Upstream.

Section Parser.
Variable JSON_parse : string -> string + json.

(** The ways through the handler of [src/unnamed/part_000]: what was
    received, what the model did, and the response. *)
Inductive Run : Try Body -> Try ChatCompletion -> Response -> Prop :=
| BodyThrows e completion :
    Run (inl e) completion (VisionAnalyzer.recover e)
| NoImage body completion :
    falsy_str (image body) = true ->
    Run (inr body) completion
      (Failure 400
         ("Campo " ++ String "034" "image" ++ String "034" " é obrigatório")
         None None None)
| CallThrows body e :
    falsy_str (image body) = false ->
    Run (inr body) (inl e) (VisionAnalyzer.recover e)
| NoChoice body response :
    falsy_str (image body) = false ->
    choices response = [] ->
    Run (inr body) (inr response)
      (VisionAnalyzer.recover
         (ErrorObject "Cannot read properties of undefined (reading 'message')"))
| EmptyAnswer body response choice rest :
    falsy_str (image body) = false ->
    choices response = choice :: rest ->
    VisionAnalyzer.empty_content (content choice) = true ->
    Run (inr body) (inr response)
      (VisionAnalyzer.upstream_empty response choice)
| NotJson body response choice rest text message :
    falsy_str (image body) = false ->
    choices response = choice :: rest ->
    VisionAnalyzer.empty_content (content choice) = false ->
    content choice = Some text ->
    JSON_parse text = inl message ->
    Run (inr body) (inr response)
      (VisionAnalyzer.recover (ErrorObject message))
| NullJson body response choice rest text :
    falsy_str (image body) = false ->
    choices response = choice :: rest ->
    VisionAnalyzer.empty_content (content choice) = false ->
    content choice = Some text ->
    JSON_parse text = inr JNull ->
    Run (inr body) (inr response)
      (VisionAnalyzer.recover
         (ErrorObject
            "Cannot read properties of null (reading 'calorias_totais')"))
| WithFields body response choice rest text j (calorias nome : option json) :
    falsy_str (image body) = false ->
    choices response = choice :: rest ->
    VisionAnalyzer.empty_content (content choice) = false ->
    content choice = Some text ->
    JSON_parse text = inr j ->
    read j "calorias_totais" = inr calorias ->
    read j "nome_do_prato" = inr nome ->
    falsy calorias && falsy nome = false ->
    Run (inr body) (inr response) (Analysis j)
| WithoutFields body response choice rest text j (calorias nome : option json) :
    falsy_str (image body) = false ->
    choices response = choice :: rest ->
    VisionAnalyzer.empty_content (content choice) = false ->
    content choice = Some text ->
    JSON_parse text = inr j ->
    read j "calorias_totais" = inr calorias ->
    read j "nome_do_prato" = inr nome ->
    falsy calorias && falsy nome = true ->
    Run (inr body) (inr response)
      (Failure 500 "Resposta inválida da análise"
         (Some "A análise não retornou os campos nutricionais esperados.")
         None (Some j)).

End Parser.

(** ** Sample answers *)

(** The text of an object with a dish name, and a stand-in for [JSON.parse]
    that is right on it, on the empty object and on an array. *)
Definition meal_text : string :=
  "{" ++ String "034" "nome_do_prato" ++ String "034" ":"
  ++ String "034" "Salada" ++ String "034" "}".

Definition meal : json := JObject [("nome_do_prato", JString "Salada")].

Definition parse_meal (text : string) : string + json :=
  if String.eqb text meal_text then inr meal
  else if String.eqb text "{}" then inr (JObject [])
  else if String.eqb text "[]" then inr (JArray [])
  else inl "Unexpected end of JSON input".

End VisionRuns.

Module ProfileStoreTerms.
Import Js ProfileStore.
Local Open Scope float_scope.

(** [r] is a write the handler accepts under the key [k]. *)
Definition writes_to (k : string) (r : Request) : bool :=
  match r with
  | Post y (inr b) =>
      match validate y b with
      | None => str_is (user_id b) k
      | Some _ => false
      end
  | _ => false
  end.


Definition teenager_example : UserProfile :=
  {| user_id := Some "u-2"; gender := Some "masculino";
     birth_year := Some 2015; weight_kg := Some 45; height_cm := Some 150;
     activity_level := Some "muito_ativo"; goal_type := Some "manter";
     goal_weight_kg := Some 45; goal_weeks := Some 4;
     daily_calories := Some 2200; macro_focus := Some "equilibrado";
     protein_percent := Some 30; carbs_percent := Some 50;
     fat_percent := Some 20; protein_grams := Some 165;
     carbs_grams := Some 275; fat_grams := Some 48.9;
     notifications_enabled := Some true |}.

Definition other_user_example : UserProfile :=
  {| user_id := Some "u-3"; gender := Some "masculino";
     birth_year := Some 1985; weight_kg := Some 88; height_cm := Some 181;
     activity_level := Some "sedentario"; goal_type := Some "perder";
     goal_weight_kg := Some 80; goal_weeks := Some 16;
     daily_calories := Some 2100; macro_focus := Some "perda_gordura";
     protein_percent := Some 35; carbs_percent := Some 40;
     fat_percent := Some 25; protein_grams := Some 183.8;
     carbs_grams := Some 210; fat_grams := Some 58.3;
     notifications_enabled := Some false |}.

(** The profile of ["u-1"] again, five kilograms lighter. *)
Definition updated_example : UserProfile :=
  {| user_id := Some "u-1"; gender := Some "feminino";
     birth_year := Some 1990; weight_kg := Some 57; height_cm := Some 168;
     activity_level := Some "levemente_ativo"; goal_type := Some "manter";
     goal_weight_kg := Some 57; goal_weeks := Some 4;
     daily_calories := Some 1900; macro_focus := Some "equilibrado";
     protein_percent := Some 30; carbs_percent := Some 50;
     fat_percent := Some 20; protein_grams := Some 142.5;
     carbs_grams := Some 237.5; fat_grams := Some 42.2;
     notifications_enabled := Some false |}.

(** Three users write and read. *)
Definition busy_day : list Request :=
  [ Post 2026 (inr stored_example); Get (by_header "u-3");
    Post 2026 (inr teenager_example); Post 2026 (inr updated_example);
    Post 2026 (inr other_user_example); Post 2026 (inr off_by_one_example);
    Get (by_header "u-1") ].
End ProfileStoreTerms.

Module GoalCalculatorTerms.
Import Js GoalCalculator.
Local Open Scope float_scope.

Definition is_rate (w : Warning) : bool :=
  match w with TooFast _ | TooSlow _ => true | _ => false end.
Definition is_calorie_limit (w : Warning) : bool :=
  match w with CaloriesAtMinimum _ | CaloriesAtMaximum _ => true | _ => false end.




Definition inherited_level_request : Body :=
  {| gender := Some "feminino"; birth_year := Some 1990;
     weight_kg := Some 62; height_cm := Some 168;
     activity_level := Some "toString"; goal_type := Some "perder";
     goal_weight_kg := Some 58; goal_weeks := Some 12;
     macro_focus := None |}.

Definition crash_diet_request : Body :=
  {| gender := Some "feminino"; birth_year := Some 1990;
     weight_kg := Some 62; height_cm := Some 168;
     activity_level := Some "sedentario"; goal_type := Some "perder";
     goal_weight_kg := Some 50; goal_weeks := Some 4;
     macro_focus := Some "perda_gordura" |}.
End GoalCalculatorTerms.

(* ===================================================================== *)
(** * Request bodies as [request.json()] yields them *)
(* ===================================================================== *)

(** The profile store and the goal calculator destructure the parsed body
    and test its fields for truthiness only, so a field reaches the
    comparisons, the arithmetic and the map with whatever JSON value the
    request carried.  This part embeds the two handlers over such bodies:
    every operator applies the conversion the language applies to its
    operands. *)

Module JsValue.
Import Js Upstream.
Local Open Scope float_scope.

(** [const { ..., name, ... } = body] for a body that is not [null]: a
    member of an object (the last one of that name), [undefined] on any
    other value. *)
Definition field (body : json) (name : string) : option json :=
  match body with
  | JObject members => last_member members name
  | _ => None
  end.

(** The values the operators work on, after [ToPrimitive]. *)
Inductive primitive : Type :=
| PUndefined
| PNull
| PBool (b : bool)
| PNumber (x : float)
| PString (s : string).

Section Conversions.

(** The two conversions between numbers and their texts are built into the
    language: [Number(s)] for a string [s] and [String(x)] for a number
    [x]. *)
Variable StringToNumber : string -> float.
Variable NumberToString : float -> string.

(** [String(v)]: an array is its elements joined by commas, with [null]
    elements left empty; an object literal is ["[object Object]"]. *)
Fixpoint ToString (v : json) : string :=
  match v with
  | JNull => "null"
  | JBool b => if b then "true" else "false"
  | JNumber x => NumberToString x
  | JString s => s
  | JArray items =>
      (fix join (l : list json) : string :=
         match l with
         | [] => ""
         | x :: rest =>
             (match x with JNull => "" | _ => ToString x end)
             ++ match rest with [] => "" | _ :: _ => "," ++ join rest end
         end) items
  | JObject _ => "[object Object]"
  end.

Definition ToPrimitive (v : option json) : primitive :=
  match v with
  | None => PUndefined
  | Some JNull => PNull
  | Some (JBool b) => PBool b
  | Some (JNumber x) => PNumber x
  | Some (JString s) => PString s
  | Some (JArray items) => PString (ToString (JArray items))
  | Some (JObject members) => PString (ToString (JObject members))
  end.

Definition number_of (p : primitive) : float :=
  match p with
  | PUndefined => nan
  | PNull => 0
  | PBool b => if b then 1 else 0
  | PNumber x => x
  | PString s => StringToNumber s
  end.

Definition string_of (p : primitive) : string :=
  match p with
  | PUndefined => "undefined"
  | PNull => "null"
  | PBool b => if b then "true" else "false"
  | PNumber x => NumberToString x
  | PString s => s
  end.

(** [Number(v)], the operand of [-], [*], [/] and of a comparison with a
    number. *)
Definition ToNumber (v : option json) : float := number_of (ToPrimitive v).

(** The key [v] turns into when it indexes an object. *)
Definition ToPropertyKey (v : option json) : string := string_of (ToPrimitive v).

(** [a + b]: concatenation as soon as one operand is a string (or an array
    or object, which turn into strings), addition of numbers otherwise. *)
Definition plus (a b : primitive) : primitive :=
  match a, b with
  | PString _, _ | _, PString _ => PString (string_of a ++ string_of b)
  | _, _ => PNumber (number_of a + number_of b)
  end.

End Conversions.

(** [p === 100] *)
Definition is_100 (p : primitive) : bool :=
  match p with
  | PNumber x => x =? 100
  | _ => false
  end.

(** [v] as a string, when it is one: the operand of [=== 'text']. *)
Definition as_string (v : option json) : option string :=
  match v with
  | Some (JString s) => Some s
  | _ => None
  end.

(** ** Stand-ins for the two conversions, right on the texts and numbers
       of the sample requests *)

Definition number_of_sample (s : string) : float :=
  if String.eqb s "0" then 0
  else if String.eqb s "5" then 5
  else if String.eqb s "70" then 70
  else nan.

Definition text_of_sample (x : float) : string :=
  if x =? 0 then "0"
  else if x =? 5 then "5"
  else if x =? 70 then "70"
  else "NaN".

End JsValue.

(* ===================================================================== *)
(** * Profile store over any body *)
(* ===================================================================== *)

Module ProfileStoreJson.
Import Js Upstream JsValue.
Local Open Scope float_scope.

(** The eighteen fields the handler destructures, each with the value the
    body carries for it; the stored profile has the same shape. *)
Record Body : Type := {
  user_id : option json;
  gender : option json;
  birth_year : option json;
  weight_kg : option json;
  height_cm : option json;
  activity_level : option json;
  goal_type : option json;
  goal_weight_kg : option json;
  goal_weeks : option json;
  daily_calories : option json;
  macro_focus : option json;
  protein_percent : option json;
  carbs_percent : option json;
  fat_percent : option json;
  protein_grams : option json;
  carbs_grams : option json;
  fat_grams : option json;
  notifications_enabled : option json
}.

Definition destructure (body : json) : Body :=
  {| user_id := field body "user_id";
     gender := field body "gender";
     birth_year := field body "birth_year";
     weight_kg := field body "weight_kg";
     height_cm := field body "height_cm";
     activity_level := field body "activity_level";
     goal_type := field body "goal_type";
     goal_weight_kg := field body "goal_weight_kg";
     goal_weeks := field body "goal_weeks";
     daily_calories := field body "daily_calories";
     macro_focus := field body "macro_focus";
     protein_percent := field body "protein_percent";
     carbs_percent := field body "carbs_percent";
     fat_percent := field body "fat_percent";
     protein_grams := field body "protein_grams";
     carbs_grams := field body "carbs_grams";
     fat_grams := field body "fat_grams";
     notifications_enabled := field body "notifications_enabled" |}.

(** ** The map

    [profiles] is a [Map]: it compares keys as [SameValueZero] does.  A
    string, a number or a boolean is the same key as an equal one; an array
    or an object of a parsed body is a new object, the same key as no other
    value.  The entries are kept in insertion order. *)
Inductive Key : Type :=
| KString (s : string)
| KNumber (x : float)
| KBool (b : bool)
| KNull
| KObject.

Definition key_of (v : json) : Key :=
  match v with
  | JNull => KNull
  | JBool b => KBool b
  | JNumber x => KNumber x
  | JString s => KString s
  | JArray _ => KObject
  | JObject _ => KObject
  end.

Definition same_key (a b : Key) : bool :=
  match a, b with
  | KString s, KString t => String.eqb s t
  | KNumber x, KNumber y => (x =? y) || (is_nan x && is_nan y)
  | KBool x, KBool y => Bool.eqb x y
  | KNull, KNull => true
  | _, _ => false
  end.

Definition Profiles : Type := list (Key * Body).

Fixpoint Map_get (profiles : Profiles) (k : Key) : option Body :=
  match profiles with
  | [] => None
  | (k', p) :: rest => if same_key k' k then Some p else Map_get rest k
  end.

Definition Map_has (profiles : Profiles) (k : Key) : bool :=
  match Map_get profiles k with Some _ => true | None => false end.

Fixpoint Map_set (profiles : Profiles) (k : Key) (p : Body) : Profiles :=
  match profiles with
  | [] => [(k, p)]
  | (k', p') :: rest =>
      if same_key k' k then (k', p) :: rest
      else (k', p') :: Map_set rest k p
  end.

(** The error bodies, as in the source; the sum a rejected write reports is
    whatever [+] made of the three fields. *)
Inductive Error : Type :=
| MissingUserIdParam
| ProfileNotFound
| MissingUserId
| MissingFields
| BirthYearOutOfRange (currentYear : float)
| TooYoung
| WeightOutOfRange
| HeightOutOfRange
| MacroSum (sum : primitive)
| Thrown (details : string).

Inductive Response : Type :=
| Found (profile : Body)                                      (* 200 *)
| Saved (status : Z) (profile : Body) (message : string)
| Failure (status : Z) (error : Error).

Definition status (r : Response) : Z :=
  match r with
  | Found _ => 200
  | Saved st _ _ => st
  | Failure st _ => st
  end.

(** ** GET: the identifier is a header or a query parameter, a string. *)
Definition GET (request : ProfileStore.Query) (profiles : Profiles)
    : Response :=
  let userId := or_str (ProfileStore.header_x_user_id request)
                       (ProfileStore.param_userId request) in
  match userId with
  | None => Failure 400 MissingUserIdParam
  | Some id =>
      if falsy_string id then Failure 400 MissingUserIdParam
      else match Map_get profiles (KString id) with
           | None => Failure 404 ProfileNotFound
           | Some profile => Found profile
           end
  end.

(** ** POST *)

(** [notifications_enabled !== undefined ? notifications_enabled : true] *)
Definition make_profile (b : Body) : Body :=
  {| user_id := user_id b;
     gender := gender b;
     birth_year := birth_year b;
     weight_kg := weight_kg b;
     height_cm := height_cm b;
     activity_level := activity_level b;
     goal_type := goal_type b;
     goal_weight_kg := goal_weight_kg b;
     goal_weeks := goal_weeks b;
     daily_calories := daily_calories b;
     macro_focus := macro_focus b;
     protein_percent := protein_percent b;
     carbs_percent := carbs_percent b;
     fat_percent := fat_percent b;
     protein_grams := protein_grams b;
     carbs_grams := carbs_grams b;
     fat_grams := fat_grams b;
     notifications_enabled :=
       match notifications_enabled b with
       | Some v => Some v
       | None => Some (JBool true)
       end |}.

Section Handler.
Variable StringToNumber : string -> float.
Variable NumberToString : float -> string.
(** The message of the [TypeError] that destructuring [null] throws. *)
Variable null_body_message : string.

Definition number (v : option json) : float := ToNumber StringToNumber NumberToString v.

(** [protein_percent + carbs_percent + fat_percent] *)
Definition percent_sum (b : Body) : primitive :=
  plus StringToNumber NumberToString
    (plus StringToNumber NumberToString
       (ToPrimitive NumberToString (protein_percent b))
       (ToPrimitive NumberToString (carbs_percent b)))
    (ToPrimitive NumberToString (fat_percent b)).

(** The checks, in source order.  A comparison with a number converts the
    field to a number first. *)
Definition validate (currentYear : float) (b : Body) : option Error :=
  let age := currentYear - number (birth_year b) in
  if falsy (user_id b) then Some MissingUserId
  else if falsy (gender b) || falsy (birth_year b)
          || falsy (weight_kg b) || falsy (height_cm b)
  then Some MissingFields
  else if (number (birth_year b) <? 1920)
          || (currentYear <? number (birth_year b))
  then Some (BirthYearOutOfRange currentYear)
  else if age <? 13 then Some TooYoung
  else if (number (weight_kg b) <? 30) || (200 <? number (weight_kg b))
  then Some WeightOutOfRange
  else if (number (height_cm b) <? 100) || (250 <? number (height_cm b))
  then Some HeightOutOfRange
  else if negb (is_100 (percent_sum b)) then Some (MacroSum (percent_sum b))
  else None.

Definition handle (currentYear : float) (b : Body) (profiles : Profiles)
    : Response * Profiles :=
  match validate currentYear b, user_id b with
  | Some e, _ => (Failure 400 e, profiles)
  | None, None => (Failure 400 MissingUserId, profiles) (* excluded by [validate] *)
  | None, Some id =>
      let profile := make_profile b in
      let isNew := negb (Map_has profiles (key_of id)) in
      (Saved (if isNew then 201 else 200) profile
         (if isNew then "Perfil criado com sucesso"
          else "Perfil atualizado com sucesso"),
       Map_set profiles (key_of id) profile)
  end.

Definition POST (currentYear : float) (request_json : string + json)
    (profiles : Profiles) : Response * Profiles :=
  match request_json with
  | inl message => (Failure 500 (Thrown message), profiles)
  | inr JNull => (Failure 500 (Thrown null_body_message), profiles)
  | inr body => handle currentYear (destructure body) profiles
  end.

(** ** The store over time *)

Inductive Request : Type :=
| Get (request : ProfileStore.Query)
| Post (currentYear : float) (request_json : string + json).

Definition serve (profiles : Profiles) (r : Request) : Profiles :=
  match r with
  | Get _ => profiles
  | Post y b => snd (POST y b profiles)
  end.

Definition after (requests : list Request) : Profiles :=
  fold_left serve requests [].

(** [r] is a write the handler accepts, with the string [k] as its
    [user_id]. *)
Definition writes_to (k : string) (r : Request) : bool :=
  match r with
  | Post y (inr body) =>
      match body, validate y (destructure body) with
      | JNull, _ => false
      | _, None => str_is (as_string (user_id (destructure body))) k
      | _, Some _ => false
      end
  | _ => false
  end.

(** What the checks leave true of a stored profile: the five required
    fields are truthy, none of the range comparisons holds of their
    numbers, the sum of the percentages is the number 100, and
    [notifications_enabled] has a value. *)
Record checked (p : Body) : Prop := {
  chk_user_id : falsy (user_id p) = false;
  chk_gender : falsy (gender p) = false;
  chk_birth_year : falsy (birth_year p) = false;
  chk_weight_kg : falsy (weight_kg p) = false;
  chk_height_cm : falsy (height_cm p) = false;
  chk_born_after : (number (birth_year p) <? 1920) = false;
  chk_weight_lo : (number (weight_kg p) <? 30) = false;
  chk_weight_hi : (200 <? number (weight_kg p)) = false;
  chk_height_lo : (number (height_cm p) <? 100) = false;
  chk_height_hi : (250 <? number (height_cm p)) = false;
  chk_sum : is_100 (percent_sum p) = true;
  chk_notifications : notifications_enabled p <> None
}.

(** An entry of the map: a profile that passed the checks, under a string
    exactly when that string is its [user_id]. *)
Definition sound_entry (e : Key * Body) : Prop :=
  checked (snd e)
  /\ forall s, fst e = KString s <-> user_id (snd e) = Some (JString s).

End Handler.

(** ** Bodies with the types of the interface *)

(** The fields the handler destructures from a body whose fields have the
    types of [interface UserProfile]. *)
Definition body_of (b : ProfileStore.UserProfile) : Body :=
  {| user_id := option_map JString (ProfileStore.user_id b);
     gender := option_map JString (ProfileStore.gender b);
     birth_year := option_map JNumber (ProfileStore.birth_year b);
     weight_kg := option_map JNumber (ProfileStore.weight_kg b);
     height_cm := option_map JNumber (ProfileStore.height_cm b);
     activity_level := option_map JString (ProfileStore.activity_level b);
     goal_type := option_map JString (ProfileStore.goal_type b);
     goal_weight_kg := option_map JNumber (ProfileStore.goal_weight_kg b);
     goal_weeks := option_map JNumber (ProfileStore.goal_weeks b);
     daily_calories := option_map JNumber (ProfileStore.daily_calories b);
     macro_focus := option_map JString (ProfileStore.macro_focus b);
     protein_percent := option_map JNumber (ProfileStore.protein_percent b);
     carbs_percent := option_map JNumber (ProfileStore.carbs_percent b);
     fat_percent := option_map JNumber (ProfileStore.fat_percent b);
     protein_grams := option_map JNumber (ProfileStore.protein_grams b);
     carbs_grams := option_map JNumber (ProfileStore.carbs_grams b);
     fat_grams := option_map JNumber (ProfileStore.fat_grams b);
     notifications_enabled :=
       option_map JBool (ProfileStore.notifications_enabled b) |}.

Definition error_of_typed (e : ProfileStore.Error) : Error :=
  match e with
  | ProfileStore.MissingUserIdParam => MissingUserIdParam
  | ProfileStore.ProfileNotFound => ProfileNotFound
  | ProfileStore.MissingUserId => MissingUserId
  | ProfileStore.MissingFields => MissingFields
  | ProfileStore.BirthYearOutOfRange y => BirthYearOutOfRange y
  | ProfileStore.TooYoung => TooYoung
  | ProfileStore.WeightOutOfRange => WeightOutOfRange
  | ProfileStore.HeightOutOfRange => HeightOutOfRange
  | ProfileStore.MacroSum sum => MacroSum (PNumber sum)
  | ProfileStore.Thrown details => Thrown details
  end.

Definition response_of_typed (r : ProfileStore.Response) : Response :=
  match r with
  | ProfileStore.Found p => Found (body_of p)
  | ProfileStore.Saved st p message => Saved st (body_of p) message
  | ProfileStore.Failure st e => Failure st (error_of_typed e)
  end.

(** The two maps hold the same profiles under the same strings. *)
Definition agree (typed : gmap string ProfileStore.UserProfile)
    (profiles : Profiles) : Prop :=
  forall k, Map_get profiles (KString k) = option_map body_of (typed !! k).

(** ** Sample bodies *)

(** The body of a write, with the given [user_id], weight and height. *)
Definition body_with (id weight height : json) : json :=
  JObject
    [ ("user_id", id); ("gender", JString "feminino");
      ("birth_year", JNumber 1990); ("weight_kg", weight);
      ("height_cm", height); ("activity_level", JString "levemente_ativo");
      ("goal_type", JString "perder"); ("goal_weight_kg", JNumber 58);
      ("goal_weeks", JNumber 12); ("daily_calories", JNumber 1700);
      ("macro_focus", JString "equilibrado");
      ("protein_percent", JNumber 30); ("carbs_percent", JNumber 50);
      ("fat_percent", JNumber 20); ("protein_grams", JNumber 127.5);
      ("carbs_grams", JNumber 212.5); ("fat_grams", JNumber 37.8) ].

(** Four writes and a read: a user, a write whose [user_id] is a number,
    an update of the first user, a write whose weight is a text. *)
Definition busy_day : list Request :=
  [ Post 2026 (inr (body_with (JString "u-1") (JNumber 62) (JNumber 168)));
    Post 2026 (inr (body_with (JNumber 5) (JNumber 62) (JNumber 168)));
    Post 2026 (inr (body_with (JString "u-1") (JNumber 57) (JNumber 168)));
    Post 2026 (inr (body_with (JString "u-2") (JString "500kg") (JNumber 168)));
    Get (ProfileStore.by_header "u-1") ].

End ProfileStoreJson.

(* ===================================================================== *)
(** * Goal calculator over any body *)
(* ===================================================================== *)

Module GoalCalculatorJson.
Import Js Upstream JsValue.
Local Open Scope float_scope.

(** The nine fields the handler destructures, each with the value the body
    carries for it. *)
Record Body : Type := {
  gender : option json;
  birth_year : option json;
  weight_kg : option json;
  height_cm : option json;
  activity_level : option json;
  goal_type : option json;
  goal_weight_kg : option json;
  goal_weeks : option json;
  macro_focus : option json
}.

Definition destructure (body : json) : Body :=
  {| gender := field body "gender";
     birth_year := field body "birth_year";
     weight_kg := field body "weight_kg";
     height_cm := field body "height_cm";
     activity_level := field body "activity_level";
     goal_type := field body "goal_type";
     goal_weight_kg := field body "goal_weight_kg";
     goal_weeks := field body "goal_weeks";
     macro_focus := field body "macro_focus" |}.

Section Handler.
Variable StringToNumber : string -> float.
Variable NumberToString : float -> string.
(** The message of the [TypeError] that destructuring [null] throws. *)
Variable null_body_message : string.

(** What the locals of the handler see of the fields.  Past the truthiness
    checks a field is only ever an operand of [-], [*], [/] (its number),
    of [=== 'masculino'] (itself, when it is a string) or an index into a
    table (its property key). *)
Definition operands (b : Body) : GoalCalculator.Body :=
  {| GoalCalculator.gender := as_string (gender b);
     GoalCalculator.birth_year :=
       Some (ToNumber StringToNumber NumberToString (birth_year b));
     GoalCalculator.weight_kg :=
       Some (ToNumber StringToNumber NumberToString (weight_kg b));
     GoalCalculator.height_cm :=
       Some (ToNumber StringToNumber NumberToString (height_cm b));
     GoalCalculator.activity_level :=
       Some (ToPropertyKey NumberToString (activity_level b));
     GoalCalculator.goal_type := as_string (goal_type b);
     GoalCalculator.goal_weight_kg :=
       Some (ToNumber StringToNumber NumberToString (goal_weight_kg b));
     GoalCalculator.goal_weeks :=
       Some (ToNumber StringToNumber NumberToString (goal_weeks b));
     GoalCalculator.macro_focus :=
       Some (ToPropertyKey NumberToString (macro_focus b)) |}.

(** The body of the [try] block: the checks test the fields as they come,
    the calculations work on their operands. *)
Definition handle (currentYear now : float) (b : Body)
    : GoalCalculator.Response :=
  if falsy (gender b) || falsy (birth_year b) || falsy (weight_kg b)
     || falsy (height_cm b) || falsy (activity_level b)
  then GoalCalculator.Failure 400
         "Campos obrigatórios faltando: gender, birth_year, weight_kg, height_cm, activity_level"
         None
  else if falsy (goal_weight_kg b) || falsy (goal_weeks b)
  then GoalCalculator.Failure 400
         "Campos de meta faltando: goal_weight_kg, goal_weeks" None
  else if GoalCalculator.age currentYear (operands b) <? 13
  then GoalCalculator.Failure 400 "Idade mínima é 13 anos" None
  else if GoalCalculator.no_multiplier (operands b)
  then GoalCalculator.Failure 400 "Nível de atividade inválido" None
  else if GoalCalculator.valid_time
            (GoalCalculator.completion_time now (operands b))
  then GoalCalculator.Success
         (GoalCalculator.calculations currentYear now (operands b))
  else GoalCalculator.Failure 500 "Erro ao calcular metas"
         (Some "Invalid time value").

Definition POST (currentYear now : float) (request_json : string + json)
    : GoalCalculator.Response :=
  match request_json with
  | inl message =>
      GoalCalculator.Failure 500 "Erro ao calcular metas" (Some message)
  | inr JNull =>
      GoalCalculator.Failure 500 "Erro ao calcular metas"
        (Some null_body_message)
  | inr body => handle currentYear now (destructure body)
  end.

End Handler.

(** ** Bodies with the types of the interface *)

Definition text (name : string) (v : option string) : list (string * json) :=
  match v with Some s => [(name, JString s)] | None => [] end.
Definition num (name : string) (v : option float) : list (string * json) :=
  match v with Some x => [(name, JNumber x)] | None => [] end.

(** The body a client sends for the given fields. *)
Definition json_of (b : GoalCalculator.Body) : json :=
  JObject
    (text "gender" (GoalCalculator.gender b)
     ++ num "birth_year" (GoalCalculator.birth_year b)
     ++ num "weight_kg" (GoalCalculator.weight_kg b)
     ++ num "height_cm" (GoalCalculator.height_cm b)
     ++ text "activity_level" (GoalCalculator.activity_level b)
     ++ text "goal_type" (GoalCalculator.goal_type b)
     ++ num "goal_weight_kg" (GoalCalculator.goal_weight_kg b)
     ++ num "goal_weeks" (GoalCalculator.goal_weeks b)
     ++ text "macro_focus" (GoalCalculator.macro_focus b))%list.

(** The fields the handler destructures from it. *)
Definition body_of (b : GoalCalculator.Body) : Body :=
  {| gender := option_map JString (GoalCalculator.gender b);
     birth_year := option_map JNumber (GoalCalculator.birth_year b);
     weight_kg := option_map JNumber (GoalCalculator.weight_kg b);
     height_cm := option_map JNumber (GoalCalculator.height_cm b);
     activity_level := option_map JString (GoalCalculator.activity_level b);
     goal_type := option_map JString (GoalCalculator.goal_type b);
     goal_weight_kg := option_map JNumber (GoalCalculator.goal_weight_kg b);
     goal_weeks := option_map JNumber (GoalCalculator.goal_weeks b);
     macro_focus := option_map JString (GoalCalculator.macro_focus b) |}.

(** ** Sample bodies *)

(** A body with the given [goal_weeks]. *)
Definition body_with_weeks (weeks : json) : json :=
  JObject
    [ ("gender", JString "masculino"); ("birth_year", JNumber 1996);
      ("weight_kg", JNumber 70); ("height_cm", JNumber 175);
      ("activity_level", JString "sedentario");
      ("goal_type", JString "perder"); ("goal_weight_kg", JNumber 65);
      ("goal_weeks", weeks); ("macro_focus", JString "equilibrado") ].

End GoalCalculatorJson.

(* ===================================================================== *)
(** * Order facts about binary64 comparisons *)
(* ===================================================================== *)

(** The comparisons of the language ([<], [>], [===] on numbers) are the
    IEEE ones.  On numbers that are not NaN they form a total order; this
    section derives the few order facts the handlers rely on from the
    specification of the primitive comparisons. *)

Module FloatOrder.

(** A key whose lexicographic order is the order of the floats. *)
Definition key (x : spec_float) : Z * Z * Z :=
  match x with
  | S754_nan => (0, 0, 0)
  | S754_zero _ => (0, 0, 0)
  | S754_infinity false => (2, 0, 0)
  | S754_infinity true => (-2, 0, 0)
  | S754_finite false m e => (1, e, Zpos m)
  | S754_finite true m e => (-1, - e, Zneg m)
  end%Z.

Definition lex (a b : Z * Z * Z) : comparison :=
  let '(a1, a2, a3) := a in
  let '(b1, b2, b3) := b in
  match (a1 ?= b1)%Z with
  | Eq => match (a2 ?= b2)%Z with
          | Eq => (a3 ?= b3)%Z
          | c => c
          end
  | c => c
  end.

Definition lex_lt (a b : Z * Z * Z) : Prop :=
  let '(a1, a2, a3) := a in
  let '(b1, b2, b3) := b in
  (a1 < b1 \/ (a1 = b1 /\ (a2 < b2 \/ (a2 = b2 /\ a3 < b3))))%Z.

Definition not_nan (x : spec_float) : bool :=
  match x with S754_nan => false | _ => true end.

(** The key of a number. *)
Definition K (x : float) : Z * Z * Z := key (Prim2SF x).

Lemma lex_Lt a b : lex a b = Lt <-> lex_lt a b.
Proof.
  destruct a as [[a1 a2] a3], b as [[b1 b2] b3]; unfold lex, lex_lt.
  destruct (Z.compare_spec a1 b1), (Z.compare_spec a2 b2),
    (Z.compare_spec a3 b3); split; intros; try discriminate; try lia; reflexivity.
Qed.

Lemma lex_Gt a b : lex a b = Gt <-> lex_lt b a.
Proof.
  destruct a as [[a1 a2] a3], b as [[b1 b2] b3]; unfold lex, lex_lt.
  destruct (Z.compare_spec a1 b1), (Z.compare_spec a2 b2),
    (Z.compare_spec a3 b3); split; intros; try discriminate; try lia; reflexivity.
Qed.

Lemma SFcompare_key x y :
  not_nan x = true -> not_nan y = true ->
  SFcompare x y = Some (lex (key x) (key y)).
Proof.
  destruct x as [sx|sx| |sx mx ex], y as [sy|sy| |sy my ey];
    try discriminate; intros _ _;
    try destruct sx; try destruct sy; try reflexivity.
  cbn [SFcompare key lex]. rewrite Z.compare_opp.
  change (Z.neg mx ?= Z.neg my)%Z with (CompOpp (Pos.compare mx my)).
  unfold Pos.compare. rewrite (Z.compare_antisym ex ey).
  destruct (ex ?= ey)%Z; reflexivity.
Qed.

Lemma is_nan_spec x : is_nan x = negb (not_nan (Prim2SF x)).
Proof.
  unfold is_nan. rewrite FloatAxioms.eqb_spec. unfold SFeqb.
  destruct (not_nan (Prim2SF x)) eqn:E.
  - rewrite SFcompare_key by assumption.
    replace (lex (key (Prim2SF x)) (key (Prim2SF x))) with Eq; [reflexivity|].
    destruct (key (Prim2SF x)) as [[a b] c]. unfold lex.
    now rewrite !Z.compare_refl.
  - destruct (Prim2SF x); try discriminate. reflexivity.
Qed.

Lemma SFcompare_nan_l x y : not_nan x = false -> SFcompare x y = None.
Proof. destruct x; try discriminate. reflexivity. Qed.

Lemma SFcompare_nan_r x y : not_nan y = false -> SFcompare x y = None.
Proof. destruct y; try discriminate. destruct x; reflexivity. Qed.

Lemma ltb_lex x y :
  (x <? y)%float = true <->
  is_nan x = false /\ is_nan y = false /\ lex_lt (K x) (K y).
Proof.
  rewrite FloatAxioms.ltb_spec, !is_nan_spec. unfold SFltb, K.
  destruct (not_nan (Prim2SF x)) eqn:Ex; cycle 1.
  { rewrite SFcompare_nan_l by assumption. cbn. intuition discriminate. }
  destruct (not_nan (Prim2SF y)) eqn:Ey; cycle 1.
  { rewrite SFcompare_nan_r by assumption. cbn. intuition discriminate. }
  rewrite SFcompare_key by assumption. rewrite <- lex_Lt. cbn.
  destruct (lex _ _); intuition discriminate.
Qed.

Lemma leb_lex x y :
  (x <=? y)%float = true <->
  is_nan x = false /\ is_nan y = false /\ ~ lex_lt (K y) (K x).
Proof.
  rewrite FloatAxioms.leb_spec, !is_nan_spec. unfold SFleb, K.
  destruct (not_nan (Prim2SF x)) eqn:Ex; cycle 1.
  { rewrite SFcompare_nan_l by assumption. cbn. intuition discriminate. }
  destruct (not_nan (Prim2SF y)) eqn:Ey; cycle 1.
  { rewrite SFcompare_nan_r by assumption. cbn. intuition discriminate. }
  rewrite SFcompare_key by assumption. cbn.
  destruct (key (Prim2SF x)) as [[a1 a2] a3], (key (Prim2SF y)) as [[b1 b2] b3].
  unfold lex, lex_lt.
  destruct (Z.compare_spec a1 b1), (Z.compare_spec a2 b2),
    (Z.compare_spec a3 b3); split; intros; try discriminate;
    repeat split; try reflexivity; try lia.
Qed.

Lemma eqb_lex x y :
  (x =? y)%float = true <->
  is_nan x = false /\ is_nan y = false /\ K x = K y.
Proof.
  rewrite FloatAxioms.eqb_spec, !is_nan_spec. unfold SFeqb, K.
  destruct (not_nan (Prim2SF x)) eqn:Ex; cycle 1.
  { rewrite SFcompare_nan_l by assumption. cbn. intuition discriminate. }
  destruct (not_nan (Prim2SF y)) eqn:Ey; cycle 1.
  { rewrite SFcompare_nan_r by assumption. cbn. intuition discriminate. }
  rewrite SFcompare_key by assumption. cbn.
  destruct (key (Prim2SF x)) as [[a1 a2] a3], (key (Prim2SF y)) as [[b1 b2] b3].
  unfold lex.
  destruct (Z.compare_spec a1 b1), (Z.compare_spec a2 b2),
    (Z.compare_spec a3 b3); split; intros; try discriminate;
    repeat split; try reflexivity; try congruence;
    try (exfalso; destruct H2 as (_ & _ & H2); injection H2; lia).
Qed.

Lemma lex_lt_trans a b c : lex_lt a b -> lex_lt b c -> lex_lt a c.
Proof.
  destruct a as [[a1 a2] a3], b as [[b1 b2] b3], c as [[c1 c2] c3].
  unfold lex_lt. lia.
Qed.

Lemma lex_lt_asym a b : lex_lt a b -> ~ lex_lt b a.
Proof.
  destruct a as [[a1 a2] a3], b as [[b1 b2] b3]. unfold lex_lt. lia.
Qed.

Lemma ltb_trans x y z :
  (x <? y)%float = true -> (y <? z)%float = true -> (x <? z)%float = true.
Proof.
  rewrite !ltb_lex. intros (Hx & _ & H1) (_ & Hz & H2).
  eauto using lex_lt_trans.
Qed.

Lemma ltb_asym x y : (x <? y)%float = true -> (y <? x)%float = false.
Proof.
  intros H. apply not_true_is_false. revert H. rewrite !ltb_lex.
  intros (_ & _ & H1) (_ & _ & H2). exact (lex_lt_asym _ _ H1 H2).
Qed.

Lemma eqb_not_ltb x y :
  (x =? y)%float = true -> (x <? y)%float = false /\ (y <? x)%float = false.
Proof.
  rewrite eqb_lex. intros (_ & _ & E).
  split; apply not_true_is_false; rewrite ltb_lex; rewrite E;
    intros (_ & _ & H); exact (lex_lt_asym _ _ H H).
Qed.

Lemma not_ltb_leb x y :
  is_nan x = false -> is_nan y = false ->
  (x <? y)%float = false -> (y <=? x)%float = true.
Proof.
  intros Hx Hy H. apply leb_lex. repeat split; try assumption.
  intros L. apply not_true_iff_false in H. apply H. apply ltb_lex. auto.
Qed.

Lemma leb_refl x : is_nan x = false -> (x <=? x)%float = true.
Proof.
  intros Hx. apply leb_lex. repeat split; try assumption.
  intros L. exact (lex_lt_asym _ _ L L).
Qed.

End FloatOrder.

(* ===================================================================== *)
(** * Profile store: the percentages of a stored profile *)
(* ===================================================================== *)

Module ProfileStoreFacts.
Import Js ProfileStore.
Local Open Scope float_scope.









End ProfileStoreFacts.

(* ===================================================================== *)
(** * Goal calculator: formulas, limits and warnings *)
(* ===================================================================== *)

Module GoalCalculatorFacts.
Import Js GoalCalculator.
Local Open Scope float_scope.

Lemma falsy_str_false v : falsy_str v = false -> exists s, v = Some s /\ s <> "".
Proof.
  destruct v as [[|c s]|]; try discriminate. intros _. eexists; split; [reflexivity|discriminate].
Qed.

Lemma falsy_num_false v :
  falsy_num v = false ->
  exists x, v = Some x /\ is_nan x = false /\ (x =? 0) = false.
Proof.
  destruct v as [x|]; try discriminate. unfold falsy_num, falsy_number, is_zero.
  intros H. apply orb_false_elim in H. destruct H. eauto.
Qed.

Lemma success_inv currentYear now body c :
  POST currentYear now (inr body) = Success c ->
  accepted currentYear now body /\ c = calculations currentYear now body.
Proof.
  unfold POST, handle.
  destruct (falsy_str (gender body)) eqn:E1; [discriminate|].
  destruct (falsy_num (birth_year body)) eqn:E2; [discriminate|].
  destruct (falsy_num (weight_kg body)) eqn:E3; [discriminate|].
  destruct (falsy_num (height_cm body)) eqn:E4; [discriminate|].
  destruct (falsy_str (activity_level body)) eqn:E5; [discriminate|].
  destruct (falsy_num (goal_weight_kg body)) eqn:E6; [discriminate|].
  destruct (falsy_num (goal_weeks body)) eqn:E7; [discriminate|].
  destruct (age currentYear body <? 13) eqn:E8; [discriminate|].
  destruct (no_multiplier body) eqn:E9; [discriminate|].
  destruct (valid_time (completion_time now body)) eqn:E10; [|discriminate].
  cbn. intros [= <-]. split; [constructor; assumption | reflexivity].
Qed.


Lemma tdee_of_level currentYear body a m :
  activity_level body = Some a ->
  get ACTIVITY_MULTIPLIERS a = Own m ->
  tdee currentYear body = tmb currentYear body * m.
Proof.
  intros Ha Hm. unfold tdee, multiplier_number, multiplier.
  rewrite Ha. cbn [property_key]. rewrite Hm. reflexivity.
Qed.

(** C1.  For every request the goal calculator answers with its
    calculations, the basal metabolic rate is the Mifflin-St Jeor value
    (male: 10·weight_kg + 6.25·height_cm − 5·age + 5; female: the same with
    − 161 for + 5) and the total daily expenditure is that rate times the
    multiplier of the activity level (1.2, 1.375, 1.55, 1.725, 1.9).  At
    70 kg, 175 cm, age 30, male, the rate is 1648.75 and, for a sedentary
    person, the expenditure is 1978.5. *)
Theorem bmr_and_tdee (currentYear now : float) (body : Body) (c : Calculations)
    (H : POST currentYear now (inr body) = Success c) :
  exists g y w h a,
    gender body = Some g /\ birth_year body = Some y /\
    weight_kg body = Some w /\ height_cm body = Some h /\
    activity_level body = Some a /\
    (g = "masculino" ->
     tmb currentYear body = 10 * w + 6.25 * h - 5 * (currentYear - y) + 5) /\
    (g = "feminino" ->
     tmb currentYear body = 10 * w + 6.25 * h - 5 * (currentYear - y) - 161) /\
    (a = "sedentario" -> tdee currentYear body = tmb currentYear body * 1.2) /\
    (a = "levemente_ativo" ->
     tdee currentYear body = tmb currentYear body * 1.375) /\
    (a = "moderadamente_ativo" ->
     tdee currentYear body = tmb currentYear body * 1.55) /\
    (a = "muito_ativo" -> tdee currentYear body = tmb currentYear body * 1.725) /\
    (a = "super_ativo" -> tdee currentYear body = tmb currentYear body * 1.9) /\
    (g = "masculino" -> w = 70 -> h = 175 -> currentYear - y = 30 ->
     tmb currentYear body = 1648.75 /\
     (a = "sedentario" -> tdee currentYear body = 1978.5)).
Proof.
  apply success_inv in H. destruct H as [[] _].
  destruct (falsy_str_false _ acc_gender0) as (g & Hg & _).
  destruct (falsy_num_false _ acc_birth_year0) as (y & Hy & _).
  destruct (falsy_num_false _ acc_weight_kg0) as (w & Hw & _).
  destruct (falsy_num_false _ acc_height_cm0) as (h & Hh & _).
  destruct (falsy_str_false _ acc_activity_level0) as (a & Ha & _).
  exists g, y, w, h, a. repeat (split; [assumption|]).
  assert (Hm : g = "masculino" ->
     tmb currentYear body = 10 * w + 6.25 * h - 5 * (currentYear - y) + 5).
  { intros ->. unfold tmb, age. rewrite Hg, Hy, Hw, Hh. reflexivity. }
  assert (Hs : forall m, get ACTIVITY_MULTIPLIERS a = Own m ->
     tdee currentYear body = tmb currentYear body * m).
  { intros m. apply tdee_of_level. assumption. }
  split; [exact Hm|].
  split. { intros ->. unfold tmb, age. rewrite Hg, Hy, Hw, Hh. reflexivity. }
  split. { intros ->. apply Hs. reflexivity. }
  split. { intros ->. apply Hs. reflexivity. }
  split. { intros ->. apply Hs. reflexivity. }
  split. { intros ->. apply Hs. reflexivity. }
  split. { intros ->. apply Hs. reflexivity. }
  intros Eg -> -> Ey.
  assert (Et : tmb currentYear body = 1648.75).
  { rewrite (Hm Eg), Ey. reflexivity. }
  split; [exact Et|].
  intros ->. rewrite (Hs 1.2 eq_refl), Et. reflexivity.
Qed.

(** C1 at the example of the specification. *)
Lemma bmr_and_tdee_example :
  POST 2026 noon (inr example_request) = Success (calculations 2026 noon example_request)
  /\ tmb 2026 example_request = 1648.75
  /\ tdee 2026 example_request = 1978.5.
Proof.
  assert (H : POST 2026 noon (inr example_request)
              = Success (calculations 2026 noon example_request)) by reflexivity.
  split; [exact H|].
  destruct (bmr_and_tdee 2026 noon example_request _ H)
    as (g & y & w & h & a & Hg & Hy & Hw & Hh & Ha & _ & _ & _ & _ & _ & _ & _ & E).
  injection Hg as <-. injection Hy as <-. injection Hw as <-.
  injection Hh as <-. injection Ha as <-.
  destruct (E eq_refl eq_refl eq_refl eq_refl) as [Et Ed].
  split; [exact Et | exact (Ed eq_refl)].
Defined.


(** ** Safety limits *)

Lemma min_calories_cases body :
  min_calories body = 1500 \/ min_calories body = 1200.
Proof. unfold min_calories. destruct (str_is _ _); auto. Qed.

(** Whenever the first value of [daily_calories] is a number, the final
    one lies between the limits, and a changed value comes with the warning
    that names the limit applied. *)
Lemma daily_calories_limited currentYear body :
  is_nan (daily_calories_0 currentYear body) = false ->
  (min_calories body <=? daily_calories currentYear body) = true /\
  (daily_calories currentYear body <=? max_calories) = true /\
  (daily_calories currentYear body <> daily_calories_0 currentYear body ->
   exists w, In w (warnings currentYear body) /\
     ((w = CaloriesAtMinimum (min_calories body) /\
       daily_calories currentYear body = min_calories body) \/
      (w = CaloriesAtMaximum max_calories /\
       daily_calories currentYear body = max_calories))).
Proof.
  intros Hd. unfold daily_calories, warnings, calorie_warning_pushed,
    calorie_warning, limited.
  destruct (daily_calories_0 currentYear body <? min_calories body) eqn:Elo.
  - cbn [fst snd]. split; [|split].
    + destruct (min_calories_cases body) as [-> | ->]; reflexivity.
    + destruct (min_calories_cases body) as [-> | ->]; reflexivity.
    + intros _. eexists. split.
      * apply in_or_app. right. apply in_or_app. left. left. reflexivity.
      * left. split; reflexivity.
  - destruct (max_calories <? daily_calories_0 currentYear body) eqn:Ehi.
    + cbn [fst snd]. split; [|split].
      * destruct (min_calories_cases body) as [-> | ->]; reflexivity.
      * reflexivity.
      * intros _. eexists. split.
        -- apply in_or_app. right. apply in_or_app. left. left. reflexivity.
        -- right. split; reflexivity.
    + cbn [fst snd]. split; [|split].
      * apply FloatOrder.not_ltb_leb; try assumption.
        destruct (min_calories_cases body) as [-> | ->]; reflexivity.
      * apply FloatOrder.not_ltb_leb; try assumption. reflexivity.
      * intros N. now elim N.
Qed.

(** C2.  The claim is that the returned [daily_calories] always lies
    between the safety floor and the ceiling.  The handler accepts
    [overflowing_request]; there the expenditure is [+∞] and the adjustment
    [−∞], their rounded sum is not a number, neither comparison of the
    limits holds for it, and [daily_calories] is returned as it is, outside
    the limits and without a warning. *)
Theorem daily_calories_not_limited :
  POST 2026 noon (inr overflowing_request)
  = Success (calculations 2026 noon overflowing_request)
  /\ tdee 2026 overflowing_request = infinity
  /\ calorie_adjustment_per_day overflowing_request = neg_infinity
  /\ r_daily_calories (calculations 2026 noon overflowing_request) = nan
  /\ (1500 <=? r_daily_calories (calculations 2026 noon overflowing_request)) = false
  /\ (r_daily_calories (calculations 2026 noon overflowing_request) <=? 5000) = false
  /\ calorie_warning 2026 overflowing_request = None.
Proof. repeat split; vm_compute; reflexivity. Qed.

(** ** Macronutrients *)

Lemma preset_of_focus body :
  (macro_focus body = Some "equilibrado" ->
   macros_percent body = Own {| protein := 30; carbs := 50; fat := 20 |}) /\
  (macro_focus body = Some "perda_gordura" ->
   macros_percent body = Own {| protein := 35; carbs := 40; fat := 25 |}) /\
  (macro_focus body = Some "ganho_massa" ->
   macros_percent body = Own {| protein := 35; carbs := 45; fat := 20 |}) /\
  (macro_focus body = Some "baixo_carb" ->
   macros_percent body = Own {| protein := 30; carbs := 30; fat := 40 |}) /\
  (macro_focus body = Some "cetogenico" ->
   macros_percent body = Own {| protein := 25; carbs := 5; fat := 70 |}).
Proof. unfold macros_percent. repeat split; intros ->; reflexivity. Qed.

(** A focus that names neither a preset nor a member of [Object.prototype]
    gets the balanced preset; so does an absent one. *)
Lemma other_focus_is_balanced body :
  let key := property_key (macro_focus body) in
  ~ In key ["equilibrado"; "perda_gordura"; "ganho_massa"; "baixo_carb";
            "cetogenico"] ->
  ~ In key Object_prototype_keys ->
  macros_percent body = Own {| protein := 30; carbs := 50; fat := 20 |}.
Proof.
  intros key Hp Ho. unfold macros_percent, get. fold key.
  assert (E : own_entry MACRO_PRESETS key = None).
  { cbn [own_entry MACRO_PRESETS].
    repeat match goal with
    | |- context [String.eqb ?k key] =>
        let E := fresh in
        destruct (String.eqb_spec k key) as [E|E];
          [exfalso; apply Hp; rewrite <- E; cbn; tauto|]
    end. reflexivity. }
  rewrite E.
  assert (F : existsb (String.eqb key) Object_prototype_keys = false).
  { apply not_true_is_false. intros F. apply existsb_exists in F.
    destruct F as (k & Hk & Ek). apply String.eqb_eq in Ek. subst k.
    exact (Ho Hk). }
  rewrite F. reflexivity.
Qed.

(** Calories follow the percentages of the preset, grams the energy
    densities 4, 4 and 9 kcal/g. *)
Lemma macros_of_preset currentYear body p :
  macros_percent body = Own p ->
  protein_calories currentYear body
    = daily_calories currentYear body * (protein p / 100) /\
  carbs_calories currentYear body
    = daily_calories currentYear body * (carbs p / 100) /\
  fat_calories currentYear body
    = daily_calories currentYear body * (fat p / 100) /\
  protein_grams currentYear body = protein_calories currentYear body / 4 /\
  carbs_grams currentYear body = carbs_calories currentYear body / 4 /\
  fat_grams currentYear body = fat_calories currentYear body / 9.
Proof.
  intros Hp.
  repeat split; try reflexivity;
    unfold protein_calories, carbs_calories, fat_calories, percent;
    rewrite Hp; reflexivity.
Qed.

Lemma ketogenic_at_2000 currentYear now body :
  macro_focus body = Some "cetogenico" ->
  daily_calories currentYear body = 2000 ->
  protein_calories currentYear body = 500 /\
  protein_grams currentYear body = 125 /\
  carbs_calories currentYear body = 100 /\
  carbs_grams currentYear body = 25 /\
  fat_calories currentYear body = 1400 /\
  grams (r_fat (calculations currentYear now body)) = 155.6.
Proof.
  intros Hf Hd.
  destruct (preset_of_focus body) as (_ & _ & _ & _ & Hk).
  destruct (macros_of_preset currentYear body _ (Hk Hf))
    as (Ep & Ec & Ef & Gp & Gc & Gf).
  cbn [calculations r_fat macro grams].
  rewrite Gp, Gc, Gf, Ep, Ec, Ef, Hd. cbn [protein carbs fat].
  repeat split; reflexivity.
Qed.

(** The ketogenic example at a request whose daily calories are 2000. *)
Lemma ketogenic_at_2000_example :
  daily_calories 2026 ketogenic_request = 2000 /\
  protein_grams 2026 ketogenic_request = 125 /\
  carbs_grams 2026 ketogenic_request = 25 /\
  grams (r_fat (calculations 2026 noon ketogenic_request)) = 155.6.
Proof.
  assert (Hd : daily_calories 2026 ketogenic_request = 2000) by reflexivity.
  split; [exact Hd|].
  destruct (ketogenic_at_2000 2026 noon ketogenic_request eq_refl Hd)
    as (_ & Gp & _ & Gc & _ & Gf).
  repeat split; assumption.
Defined.

(** C3.  The claim is that any [macro_focus] that is not the name of a
    preset gets the balanced preset.  ["constructor"] names no preset, but
    indexing the table of presets with it yields the member every object
    inherits, which is truthy, so the balanced preset is not substituted:
    the percentages are [undefined] and the calories and grams of the three
    macros are not numbers. *)
Theorem inherited_focus_is_not_balanced :
  POST 2026 noon (inr inherited_focus_request)
  = Success (calculations 2026 noon inherited_focus_request)
  /\ own_entry MACRO_PRESETS "constructor" = None
  /\ macros_percent inherited_focus_request = Inherited "constructor"
  /\ macros_percent inherited_focus_request <> Own equilibrado
  /\ r_daily_calories (calculations 2026 noon inherited_focus_request) = 2000
  /\ r_protein (calculations 2026 noon inherited_focus_request)
     = {| grams := nan; percent_of := None; calories := nan |}
  /\ r_carbs (calculations 2026 noon inherited_focus_request)
     = {| grams := nan; percent_of := None; calories := nan |}
  /\ r_fat (calculations 2026 noon inherited_focus_request)
     = {| grams := nan; percent_of := None; calories := nan |}.
Proof. repeat split; try discriminate; vm_compute; reflexivity. Qed.


(** ** Advisory warnings *)

Lemma existsb_calorie_warning currentYear body kind :
  kind (CaloriesAtMinimum (min_calories body)) = false ->
  kind (CaloriesAtMaximum max_calories) = false ->
  existsb kind (calorie_warning_pushed currentYear body) = false.
Proof.
  intros H1 H2. unfold calorie_warning_pushed, calorie_warning, limited.
  destruct (_ <? _); [cbn; now rewrite H1|].
  destruct (_ <? _); [cbn; now rewrite H2|]. reflexivity.
Qed.

Lemma existsb_rate_warning body kind :
  existsb kind (rate_warning body)
  = if 1 <? Math_abs (kg_per_week body)
    then kind (TooFast (Math_abs (kg_per_week body)))
    else if Math_abs (kg_per_week body) <? 0.25
    then kind (TooSlow (Math_abs (kg_per_week body)))
    else false.
Proof.
  unfold rate_warning. destruct (_ <? _); [cbn; apply orb_false_r|].
  destruct (_ <? _); [cbn; apply orb_false_r | reflexivity].
Qed.

Lemma existsb_bmi_warning body kind :
  existsb kind (bmi_warning body)
  = if bmi_goal body <? 18.5 then kind GoalBmiLow
    else if 30 <? bmi_goal body then kind GoalBmiHigh
    else false.
Proof.
  unfold bmi_warning. destruct (_ <? _); [cbn; apply orb_false_r|].
  destruct (_ <? _); [cbn; apply orb_false_r | reflexivity].
Qed.

Lemma slow_is_not_fast x : (x <? 0.25) = true -> (1 <? x) = false.
Proof.
  intros Hs. apply not_true_is_false. intros Hf.
  pose proof (FloatOrder.ltb_trans _ _ _ Hf Hs) as H. discriminate H.
Qed.

(** C8, as the handler has it.  For every request answered with
    calculations, the warnings contain a too-fast warning exactly when
    |kg_per_week| > 1, a too-slow warning exactly when |kg_per_week| < 0.25,
    and a goal-BMI warning exactly when the goal BMI is below 18.5 or above
    30; a goal BMI of exactly 30 gives none. *)
Theorem advisory_warnings (currentYear now : float) (body : Body)
    (c : Calculations) (H : POST currentYear now (inr body) = Success c) :
  warned is_too_fast c = (1 <? Math_abs (kg_per_week body)) /\
  warned is_too_slow c = (Math_abs (kg_per_week body) <? 0.25) /\
  warned is_goal_bmi c = (bmi_goal body <? 18.5) || (30 <? bmi_goal body).
Proof.
  apply success_inv in H. destruct H as [_ ->].
  unfold warned. cbn [calculations r_warnings]. unfold warnings.
  rewrite !existsb_app, !existsb_rate_warning, !existsb_bmi_warning.
  rewrite !(existsb_calorie_warning currentYear body) by reflexivity. cbn [is_too_fast is_too_slow is_goal_bmi].
  set (a := Math_abs (kg_per_week body)). set (b := bmi_goal body).
  pose proof (slow_is_not_fast a) as S.
  destruct (1 <? a), (a <? 0.25), (b <? 18.5), (30 <? b);
    repeat split; try reflexivity; discriminate (S eq_refl).
Qed.

(** C8, as the handler has it, at a goal BMI of exactly 30. *)
Lemma advisory_warnings_example :
  warned is_too_fast (calculations 2026 noon bmi_30_request) = false /\
  warned is_too_slow (calculations 2026 noon bmi_30_request) = false /\
  warned is_goal_bmi (calculations 2026 noon bmi_30_request) = false.
Proof.
  exact (advisory_warnings 2026 noon bmi_30_request _ eq_refl).
Defined.

(** C8 as stated fails: a goal BMI of exactly 30 is outside [[18.5, 30)],
    and the answer carries no goal-BMI warning. *)
Lemma goal_bmi_30_is_not_warned :
  POST 2026 noon (inr bmi_30_request) = Success (calculations 2026 noon bmi_30_request)
  /\ bmi_goal bmi_30_request = 30
  /\ outside_18_5_to_30 (bmi_goal bmi_30_request) = true
  /\ warned is_goal_bmi (calculations 2026 noon bmi_30_request) = false
  /\ r_warnings (calculations 2026 noon bmi_30_request) = [].
Proof. repeat split; vm_compute; reflexivity. Qed.

(** ** Goal type *)

(** C9.  For every request answered with calculations, the returned
    [goal_type] follows the sign of goal_weight_kg − weight_kg ("ganhar"
    when positive, "perder" when negative, "manter" when zero), and the
    answer is the same whatever [goal_type] the request carries. *)
Theorem goal_type_from_weights (currentYear now : float) (body : Body)
    (c : Calculations) (H : POST currentYear now (inr body) = Success c) :
  exists w gw,
    weight_kg body = Some w /\ goal_weight_kg body = Some gw /\
    ((0 <? gw - w) = true -> r_goal_type c = "ganhar") /\
    ((gw - w <? 0) = true -> r_goal_type c = "perder") /\
    ((gw - w =? 0) = true -> r_goal_type c = "manter") /\
    forall g, POST currentYear now (inr (with_goal_type g body)) = Success c.
Proof.
  assert (G : forall g, POST currentYear now (inr (with_goal_type g body)) = Success c).
  { intros g. rewrite <- H. reflexivity. }
  apply success_inv in H. destruct H as [[] ->].
  destruct (falsy_num_false _ acc_weight_kg0) as (w & Hw & _).
  destruct (falsy_num_false _ acc_goal_weight_kg0) as (gw & Hgw & _).
  exists w, gw. repeat (split; [assumption|]).
  cbn [calculations r_goal_type]. unfold weight_change_kg.
  rewrite Hw, Hgw. cbn [to_number].
  split; [|split; [|split]].
  - intros ->. reflexivity.
  - intros L. rewrite (FloatOrder.ltb_asym _ _ L), L. reflexivity.
  - intros E. destruct (FloatOrder.eqb_not_ltb _ _ E) as [-> ->]. reflexivity.
  - exact G.
Qed.

(** C9 at a request to lose weight that says it wants to gain. *)
Lemma goal_type_from_weights_example :
  r_goal_type (calculations 2026 noon example_request) = "perder" /\
  POST 2026 noon (inr (with_goal_type (Some "ganhar") example_request))
  = Success (calculations 2026 noon example_request).
Proof.
  destruct (goal_type_from_weights 2026 noon example_request _ eq_refl)
    as (w & gw & Hw & Hgw & _ & Hl & _ & Hg).
  injection Hw as <-. injection Hgw as <-.
  split; [exact (Hl eq_refl) | exact (Hg (Some "ganhar"))].
Defined.

End GoalCalculatorFacts.

(* ===================================================================== *)
(** * Vision analyzer: empty answers and failed calls *)
(* ===================================================================== *)

Module VisionAnalyzerFacts.
Import Js Upstream VisionSamples.

Section Parser.
Variable JSON_parse : string -> string + json.

(** The answer of [src/unnamed/part_000] to an empty answer of the model:
    status 500, with the model, its finish reason and the token usage. *)
Lemma empty_answer_is_reported body response choice rest :
  falsy_str (image body) = false ->
  choices response = choice :: rest ->
  (content choice = None \/
   exists s, content choice = Some s /\ (s = "" \/ trim s = "" \/ s = "{}")) ->
  VisionAnalyzer.POST JSON_parse (inr body) (inr response)
  = VisionAnalyzer.upstream_empty response choice
  /\ status (VisionAnalyzer.POST JSON_parse (inr body) (inr response)) = 500%Z
  /\ debug_of (VisionAnalyzer.POST JSON_parse (inr body) (inr response))
     = Some {| debug_model := model response;
               debug_finish_reason := finish_reason choice;
               debug_usage := usage response |}.
Proof.
  intros Himg Hch Hc.
  assert (E : VisionAnalyzer.empty_content (content choice) = true).
  { destruct Hc as [-> | (s & -> & [-> | [Ht | ->]])]; try reflexivity.
    unfold VisionAnalyzer.empty_content. rewrite Ht. cbn.
    now rewrite orb_true_r. }
  assert (P : VisionAnalyzer.POST JSON_parse (inr body) (inr response)
              = VisionAnalyzer.upstream_empty response choice).
  { unfold VisionAnalyzer.POST, VisionAnalyzer.attempt, bind, first_choice.
    rewrite Himg, Hch. cbn [ret]. rewrite E. reflexivity. }
  rewrite P. repeat split.
Qed.

(** C6.  The claim is that an empty answer of the model is never returned
    as a success.  In the handler of [src/unnamed/part_001], when the
    content of the answer is [null], empty or the text of the empty object,
    the text parsed is that of the empty object and the handler answers 200
    with the empty object, without the finish reason or the token usage.
    ([empty_answer_is_reported] above is the behaviour of the handler of
    [src/unnamed/part_000].) *)
Theorem part_001_answers_empty_object (body : Body)
    (response : ChatCompletion) (choice : Choice) (rest : list Choice)
    (Hparse : JSON_parse "{}" = inr (JObject []))
    (Himg : falsy_str (image body) = false)
    (Hch : choices response = choice :: rest)
    (Hc : content choice = None \/ content choice = Some ""
          \/ content choice = Some "{}") :
  VisionAnalyzer_part_001.POST JSON_parse (inr body) (inr response)
  = Analysis (JObject [])
  /\ status (VisionAnalyzer_part_001.POST JSON_parse (inr body) (inr response))
     = 200%Z
  /\ debug_of (VisionAnalyzer_part_001.POST JSON_parse (inr body) (inr response))
     = None.
Proof.
  assert (P : VisionAnalyzer_part_001.POST JSON_parse (inr body) (inr response)
              = Analysis (JObject [])).
  { unfold VisionAnalyzer_part_001.POST, VisionAnalyzer_part_001.attempt,
      bind, first_choice.
    rewrite Himg, Hch. cbn [ret].
    assert (E : VisionAnalyzer_part_001.content_or_braces (content choice)
                = "{}") by (destruct Hc as [-> | [-> | ->]]; reflexivity).
    rewrite E. unfold VisionAnalyzer_part_001.parse. rewrite Hparse.
    reflexivity. }
  rewrite P. repeat split.
Qed.

(** ** Classification of a failed call *)

(** The order in which the handler of [src/unnamed/part_000] tests the
    message of an [Error] thrown by the call to the model: "401" or
    "Unauthorized" first, then "429" or "Rate limit", then "quota" or
    "insufficient_quota"; a message with none of them is passed through. *)
Lemma markers_are_tested_in_order (body : Body) (message : string)
    (Himg : falsy_str (image body) = false) :
  let r := VisionAnalyzer.POST JSON_parse (inr body)
             (inl (ErrorObject message)) in
  (auth_marker message = true ->
   status r = 500%Z /\ error_of r = Some "Erro de autenticação com OpenAI" /\
   details_of r
   = Some "API Key inválida ou expirada. Verifique as configurações.") /\
  (auth_marker message = false -> rate_marker message = true ->
   status r = 429%Z /\ error_of r = Some "Limite de requisições atingido") /\
  (auth_marker message = false -> rate_marker message = false ->
   quota_marker message = true ->
   status r = 500%Z /\ error_of r = Some "Créditos esgotados" /\
   details_of r
   = Some "Sem créditos disponíveis na conta OpenAI. Adicione créditos para continuar.") /\
  (auth_marker message = false -> rate_marker message = false ->
   quota_marker message = false ->
   status r = 500%Z /\
   error_of r = Some "Ocorreu um erro ao analisar a imagem." /\
   details_of r = Some message).
Proof.
  intros r.
  assert (R : r = VisionAnalyzer.recover (ErrorObject message)).
  { unfold r, VisionAnalyzer.POST, VisionAnalyzer.attempt, bind.
    rewrite Himg. reflexivity. }
  rewrite R. unfold VisionAnalyzer.recover, auth_marker, rate_marker,
    quota_marker.
  repeat split; intros;
    repeat match goal with H : _ = _ |- _ => rewrite H end; reflexivity.
Qed.

(** C7.  The claim is that a failed call to the model is answered by its
    kind, the three kinds apart: rate limit 429, authentication and quota
    500 with their own texts.  The message the provider sends when the
    quota is exhausted starts with the status code 429 and names the quota.
    The handler of [src/unnamed/part_000] tests "429" before "quota": it
    answers that message 429 with the texts of a rate limit, the very
    response it gives to a rate limit, and its branch for the quota is not
    reached.  The handler of [src/unnamed/part_001] tests nothing: a rate
    limit, a wrong key and an exhausted quota are all answered 500 with the
    same [error] text. *)
Theorem quota_error_is_answered_as_rate_limit :
  let failed message := inl (ErrorObject message) in
  let r0 := VisionAnalyzer.POST JSON_parse (inr photo) (failed quota_message) in
  quota_marker quota_message = true /\
  r0 = Failure 429 "Limite de requisições atingido"
         (Some "Muitas requisições em pouco tempo. Aguarde alguns instantes e tente novamente.")
         None None /\
  r0 = VisionAnalyzer.POST JSON_parse (inr photo) (failed rate_limit_message) /\
  error_of r0 <> Some "Créditos esgotados" /\
  VisionAnalyzer_part_001.POST JSON_parse (inr photo) (failed quota_message)
  = Failure 500 "Ocorreu um erro ao analisar a imagem." (Some quota_message)
      None None /\
  VisionAnalyzer_part_001.POST JSON_parse (inr photo) (failed rate_limit_message)
  = Failure 500 "Ocorreu um erro ao analisar a imagem."
      (Some rate_limit_message) None None /\
  VisionAnalyzer_part_001.POST JSON_parse (inr photo) (failed auth_message)
  = Failure 500 "Ocorreu um erro ao analisar a imagem." (Some auth_message)
      None None.
Proof.
  cbn zeta. repeat split; try reflexivity. discriminate.
Qed.

End Parser.

(** C6 at an answer of the model whose content is the empty object. *)
Lemma part_001_answers_empty_object_example :
  VisionAnalyzer_part_001.POST parse_braces (inr photo)
    (inr (answer (Some "{}")))
  = Analysis (JObject []).
Proof.
  apply (part_001_answers_empty_object parse_braces photo
           (answer (Some "{}")) _ [] eq_refl eq_refl eq_refl).
  right. right. reflexivity.
Defined.

End VisionAnalyzerFacts.

(* ===================================================================== *)
(** * Further order facts *)
(* ===================================================================== *)

Module FloatMore.
Import FloatOrder.
Local Open Scope float_scope.

Lemma mul_nan_r x : x * nan = nan.
Proof.
  apply Prim2SF_inj. rewrite mul_spec.
  change (Prim2SF nan) with S754_nan. now destruct (Prim2SF x).
Qed.

Lemma add_nan_l y : nan + y = nan.
Proof.
  apply Prim2SF_inj. rewrite add_spec.
  change (Prim2SF nan) with S754_nan. reflexivity.
Qed.

Lemma ltb_nan_l y : (nan <? y) = false.
Proof.
  apply not_true_is_false. rewrite ltb_lex. intros (H & _). discriminate H.
Qed.

Lemma ltb_nan_r x : (x <? nan) = false.
Proof.
  apply not_true_is_false. rewrite ltb_lex. intros (_ & H & _). discriminate H.
Qed.

Lemma ltb_irrefl x : (x <? x) = false.
Proof.
  destruct (x <? x) eqn:E; [|reflexivity]. now rewrite (ltb_asym _ _ E) in E.
Qed.

Lemma leb_not_ltb x y : (x <=? y) = true -> (y <? x) = false.
Proof.
  rewrite leb_lex. intros (_ & _ & H). apply not_true_is_false.
  rewrite ltb_lex. intros (_ & _ & L). exact (H L).
Qed.

Lemma ltb_not_nan x y : (x <? y) = true -> is_nan x = false /\ is_nan y = false.
Proof. rewrite ltb_lex. tauto. Qed.

End FloatMore.

(* ===================================================================== *)
(** * Profile store: the store through a history of requests *)
(* ===================================================================== *)

Module ProfileStoreMore.
Import Js ProfileStore ProfileStoreTerms.
Local Open Scope float_scope.

Lemma str_is_eq v k : str_is v k = true <-> v = Some k.
Proof.
  destruct v as [s|]; cbn; [|split; discriminate].
  rewrite String.eqb_eq. split; [now intros -> | now intros [= ->]].
Qed.

Lemma validate_key y b :
  validate y b = None -> exists k, user_id b = Some k /\ k <> "".
Proof.
  unfold validate. destruct (user_id b) as [[|c k]|]; cbn; try discriminate.
  intros _. eexists. split; [reflexivity | discriminate].
Qed.

(** What one request does to one key. *)
Lemma serve_lookup (profiles : gmap string UserProfile) r k :
  serve profiles r !! k
  = if writes_to k r
    then match r with
         | Post _ (inr b) => Some (make_profile b)
         | _ => None
         end
    else profiles !! k.
Proof.
  destruct r as [q | y [m | b]]; cbn [serve writes_to POST snd]; try reflexivity.
  unfold handle. destruct (validate y b) as [e|] eqn:Hv; [reflexivity|].
  destruct (validate_key _ _ Hv) as (id & Hid & _). rewrite Hid. cbn [snd str_is].
  destruct (String.eqb_spec id k) as [->|Hne].
  - apply lookup_insert_eq.
  - now apply lookup_insert_ne.
Qed.

Lemma after_snoc requests r : after (requests ++ [r]) = serve (after requests) r.
Proof. unfold after. now rewrite fold_left_app. Qed.

Lemma fold_serve_lookup post (profiles : gmap string UserProfile) k :
  existsb (writes_to k) post = false ->
  fold_left serve post profiles !! k = profiles !! k.
Proof.
  revert profiles. induction post as [|r post IH]; intros profiles H; [reflexivity|].
  cbn in H. apply orb_false_elim in H. destruct H as [Hr Hp].
  cbn [fold_left]. rewrite (IH _ Hp), serve_lookup, Hr. reflexivity.
Qed.

(** X2.  A read for a non-empty identifier under which no write was ever
    accepted is answered 404. *)
Theorem unwritten_is_not_found (requests : list Request) (k : string)
    (q : Query)
    (Hq : or_str (header_x_user_id q) (param_userId q) = Some k)
    (Hne : k <> "")
    (Hn : existsb (writes_to k) requests = false) :
  GET q (after requests) = Failure 404 ProfileNotFound.
Proof.
  unfold GET. rewrite Hq. destruct k as [|c k]; [now elim Hne|].
  cbn [falsy_string]. unfold after. rewrite (fold_serve_lookup _ _ _ Hn).
  now rewrite lookup_empty.
Qed.


(** ** What the checks guarantee *)




(** X3.  Every profile in the store was built from the body of a write in the
    history that passed the checks and carried that key as its [user_id]. *)
Theorem stored_profile_was_written (requests : list Request) (k : string)
    (p : UserProfile) (H : after requests !! k = Some p) :
  exists y b,
    In (Post y (inr b)) requests /\ validate y b = None /\
    user_id b = Some k /\ p = make_profile b.
Proof.
  revert p H. induction requests as [|r requests IH] using rev_ind; intros p H.
  - unfold after in H. cbn in H. now rewrite lookup_empty in H.
  - rewrite after_snoc, serve_lookup in H.
    destruct (writes_to k r) eqn:Hw.
    + destruct r as [q | y [m | b]]; try discriminate.
      cbn [writes_to] in Hw. destruct (validate y b) eqn:Hv; [discriminate|].
      apply str_is_eq in Hw. injection H as <-.
      exists y, b. repeat split; try assumption.
      apply in_or_app. right. now left.
    + destruct (IH p H) as (y & b & Hin & Hv & Hk & Hp).
      exists y, b. repeat split; try assumption.
      apply in_or_app. now left.
Qed.



(** X8.  A key that is in the store stays in the store through every later
    sequence of requests: there is no way to delete a profile. *)
Theorem stored_keys_stay (before later : list Request) (k : string)
    (H : is_Some (after before !! k)) :
  is_Some (after (before ++ later) !! k).
Proof.
  unfold after in *. rewrite fold_left_app.
  revert H. generalize (fold_left serve before (∅ : gmap string UserProfile)).
  induction later as [|r later IH]; intros profiles H; [exact H|].
  cbn [fold_left]. apply IH. rewrite serve_lookup.
  destruct (writes_to k r) eqn:Hw; [|exact H].
  destruct r as [q | y0 [m | b]]; try discriminate. eauto.
Qed.

(** X9.  A read takes the identifier from the [x-user-id] header when that is
    not empty, whatever the query says; with the header absent or empty it
    takes the [userId] query parameter; with neither it is answered 400. *)
Theorem identifier_from_header_or_query (header param : option string)
    (profiles : gmap string UserProfile) :
  let q := {| header_x_user_id := header; param_userId := param |} in
  (forall h, header = Some h -> h <> "" ->
     GET q profiles = GET (by_header h) profiles) /\
  (header = None \/ header = Some "" ->
     GET q profiles = GET {| header_x_user_id := param; param_userId := None |}
                        profiles) /\
  ((header = None \/ header = Some "") /\ (param = None \/ param = Some "") ->
     GET q profiles = Failure 400 MissingUserIdParam).
Proof.
  cbn zeta. repeat split.
  - intros h -> Hh. destruct h as [|c h]; [now elim Hh|]. reflexivity.
  - intros [-> | ->]; destruct param as [[|c p]|]; reflexivity.
  - intros [[-> | ->] [-> | ->]]; reflexivity.
Qed.


(** ** The statements above at sample requests *)

Lemma unwritten_is_not_found_example :
  GET (by_header "u-2") (after busy_day) = Failure 404 ProfileNotFound.
Proof.
  apply (unwritten_is_not_found busy_day "u-2" (by_header "u-2"));
    [reflexivity | discriminate | reflexivity].
Defined.

Lemma stored_profile_was_written_example :
  exists y b,
    In (Post y (inr b)) busy_day /\ validate y b = None /\
    user_id b = Some "u-3" /\ make_profile other_user_example = make_profile b.
Proof.
  apply (stored_profile_was_written busy_day "u-3"
           (make_profile other_user_example)).
  vm_compute. reflexivity.
Defined.



Lemma stored_keys_stay_example : is_Some (after busy_day !! "u-1").
Proof.
  apply (stored_keys_stay [Post 2026 (inr stored_example)]
           [Get (by_header "u-3"); Post 2026 (inr teenager_example);
            Post 2026 (inr updated_example);
            Post 2026 (inr other_user_example);
            Post 2026 (inr off_by_one_example); Get (by_header "u-1")] "u-1").
  exists (make_profile stored_example). vm_compute. reflexivity.
Defined.

Lemma identifier_from_header_or_query_example :
  GET {| header_x_user_id := Some "u-1"; param_userId := Some "u-3" |}
    (after busy_day)
  = GET (by_header "u-1") (after busy_day) /\
  GET {| header_x_user_id := Some ""; param_userId := Some "u-3" |}
    (after busy_day)
  = GET (by_header "u-3") (after busy_day).
Proof.
  split.
  - apply (proj1 (identifier_from_header_or_query (Some "u-1") (Some "u-3")
                    (after busy_day)) "u-1" eq_refl).
    discriminate.
  - apply (proj1 (proj2 (identifier_from_header_or_query (Some "")
                           (Some "u-3") (after busy_day)))).
    right. reflexivity.
Defined.

End ProfileStoreMore.

(* ===================================================================== *)
(** * Goal calculator: acceptance, limits, categories and warnings *)
(* ===================================================================== *)

Module GoalCalculatorMore.
Import Js GoalCalculator GoalCalculatorFacts GoalCalculatorTerms FloatMore.
Local Open Scope float_scope.



Lemma multiplier_of_inherited body a :
  activity_level body = Some a -> In a Object_prototype_keys ->
  multiplier body = Inherited a.
Proof.
  intros Ha Ho. unfold multiplier. rewrite Ha. cbn [property_key].
  cbn in Ho. repeat destruct Ho as [<- | Ho]; try reflexivity. now elim Ho.
Qed.


(** X12.  An activity level that names a member of [Object.prototype] passes
    the check of the level: when the request is answered with calculations,
    the expenditure and the daily calories returned are not numbers and no
    calorie limit is applied. *)
Theorem inherited_activity_level_gives_nan (currentYear now : float)
    (body : Body) (a : string) (c : Calculations)
    (Ha : activity_level body = Some a)
    (Ho : In a Object_prototype_keys)
    (H : POST currentYear now (inr body) = Success c) :
  no_multiplier body = false /\
  r_tdee c = nan /\ r_daily_calories c = nan /\
  warned is_calorie_limit c = false.
Proof.
  pose proof (multiplier_of_inherited body a Ha Ho) as M.
  apply success_inv in H. destruct H as [_ ->].
  assert (T : tdee currentYear body = nan).
  { unfold tdee, multiplier_number. rewrite M. apply mul_nan_r. }
  assert (D : daily_calories_0 currentYear body = nan).
  { unfold daily_calories_0. rewrite T, add_nan_l. reflexivity. }
  assert (L : limited currentYear body = (nan, None)).
  { unfold limited. rewrite D, ltb_nan_l, ltb_nan_r. reflexivity. }
  split. { unfold no_multiplier. now rewrite M. }
  unfold warned. cbn [calculations r_tdee r_daily_calories r_warnings].
  split. { now rewrite T. }
  split. { unfold daily_calories. now rewrite L. }
  unfold warnings, calorie_warning_pushed, calorie_warning. rewrite L.
  cbn [snd app]. rewrite existsb_app, existsb_rate_warning, existsb_bmi_warning.
  cbn [is_calorie_limit].
  repeat match goal with |- context [if ?c then _ else _] => destruct c end;
    reflexivity.
Qed.


(** X13.  When the rounded sum of expenditure and adjustment is a number, the
    daily calories returned lie between the floor of the gender and 5000;
    the answer carries a calorie warning exactly when the sum was below the
    floor or above 5000, and exactly then the value returned differs from
    the sum. *)
Theorem daily_calories_within_limits (currentYear now : float) (body : Body)
    (c : Calculations)
    (H : POST currentYear now (inr body) = Success c)
    (Hn : is_nan (daily_calories_0 currentYear body) = false) :
  let d := daily_calories_0 currentYear body in
  (min_calories body <=? r_daily_calories c) = true /\
  (r_daily_calories c <=? 5000) = true /\
  warned is_calorie_limit c = (d <? min_calories body) || (5000 <? d) /\
  (warned is_calorie_limit c = false <-> r_daily_calories c = d).
Proof.
  apply success_inv in H. destruct H as [_ ->]. cbn zeta.
  unfold warned. cbn [calculations r_daily_calories r_warnings].
  assert (Hmin : min_calories body = 1500 \/ min_calories body = 1200).
  { unfold min_calories. destruct (str_is _ _); auto. }
  assert (W : existsb is_calorie_limit (warnings currentYear body)
              = (daily_calories_0 currentYear body <? min_calories body)
                || (5000 <? daily_calories_0 currentYear body)).
  { unfold warnings, calorie_warning_pushed, calorie_warning, limited.
    rewrite !existsb_app, existsb_rate_warning, existsb_bmi_warning.
    change max_calories with 5000.
    cbn [is_calorie_limit].
    repeat match goal with
    | |- context [if ?c then _ else _] => destruct c
    end; reflexivity. }
  rewrite W. unfold daily_calories, limited. change max_calories with 5000.
  destruct (daily_calories_0 currentYear body <? min_calories body) eqn:Elo.
  - cbn [fst orb]. repeat split; try discriminate.
    + destruct Hmin as [-> | ->]; reflexivity.
    + destruct Hmin as [-> | ->]; reflexivity.
    + intros E. rewrite <- E, ltb_irrefl in Elo. discriminate.
  - destruct (5000 <? daily_calories_0 currentYear body) eqn:Ehi.
    + cbn [fst orb]. repeat split; try discriminate.
      * destruct Hmin as [-> | ->]; reflexivity.
      * intros E. rewrite <- E in Ehi. discriminate.
    + cbn [fst orb]. repeat split.
      * apply FloatOrder.not_ltb_leb; try assumption.
        destruct Hmin as [-> | ->]; reflexivity.
      * apply FloatOrder.not_ltb_leb; try assumption. reflexivity.
Qed.

(** ** BMI bands *)

(** X14.  For a BMI that is a number, the category is "Abaixo do peso" exactly
    below 18.5, "Peso normal" exactly from 18.5 up to but not including 25,
    "Sobrepeso" exactly from 25 up to but not including 30, and "Obesidade"
    exactly from 30 on. *)
Theorem bmi_bands (x : float) (Hx : is_nan x = false) :
  (getBMICategory x = "Abaixo do peso" <-> (x <? 18.5) = true) /\
  (getBMICategory x = "Peso normal"
   <-> (18.5 <=? x) = true /\ (x <? 25) = true) /\
  (getBMICategory x = "Sobrepeso"
   <-> (25 <=? x) = true /\ (x <? 30) = true) /\
  (getBMICategory x = "Obesidade" <-> (30 <=? x) = true).
Proof.
  unfold getBMICategory.
  assert (T1 : (x <? 18.5) = true -> (x <? 25) = true).
  { intros L. now apply (FloatOrder.ltb_trans _ 18.5). }
  assert (T2 : (x <? 25) = true -> (x <? 30) = true).
  { intros L. now apply (FloatOrder.ltb_trans _ 25). }
  assert (G : forall y, is_nan y = false ->
            ((y <=? x) = true <-> (x <? y) = false)).
  { intros y Hy. split; [apply leb_not_ltb|].
    now apply FloatOrder.not_ltb_leb. }
  rewrite (G 18.5), (G 25), (G 30) by reflexivity.
  destruct (x <? 18.5) eqn:E1.
  { rewrite (T1 eq_refl), (T2 (T1 eq_refl)).
    repeat split; try discriminate; intuition discriminate. }
  destruct (x <? 25) eqn:E2.
  { rewrite (T2 eq_refl). repeat split; try discriminate; intuition discriminate. }
  destruct (x <? 30) eqn:E3;
    repeat split; try discriminate; intuition discriminate.
Qed.

Lemma In_warnings currentYear body w :
  In w (warnings currentYear body) <->
  In w (rate_warning body) \/ In w (calorie_warning_pushed currentYear body)
  \/ In w (bmi_warning body).
Proof. unfold warnings. now rewrite !in_app_iff. Qed.

Lemma In_rate_warning body w : In w (rate_warning body) -> is_rate w = true.
Proof.
  unfold rate_warning. destruct (_ <? _); [|destruct (_ <? _)]; cbn;
    intros Hin; intuition (subst; reflexivity).
Qed.

Lemma In_calorie_warning currentYear body w :
  In w (calorie_warning_pushed currentYear body) -> is_calorie_limit w = true.
Proof.
  unfold calorie_warning_pushed, calorie_warning, limited.
  destruct (_ <? _); [|destruct (_ <? _)]; cbn;
    intros Hin; intuition (subst; reflexivity).
Qed.

Lemma In_bmi_warning body w :
  In w (bmi_warning body) <->
  (w = GoalBmiLow /\ (bmi_goal body <? 18.5) = true) \/
  (w = GoalBmiHigh /\ (bmi_goal body <? 18.5) = false
   /\ (30 <? bmi_goal body) = true).
Proof.
  unfold bmi_warning. destruct (_ <? 18.5); [|destruct (30 <? _)]; cbn;
    intuition (try discriminate; try congruence); auto.
Qed.

(** X15.  The low goal-BMI warning is given exactly when the goal category is
    "Abaixo do peso"; the high goal-BMI warning is given only when the goal
    category is "Obesidade"; a goal in "Peso normal" or "Sobrepeso" gets no
    goal-BMI warning. *)
Theorem goal_bmi_warning_and_category (currentYear now : float) (body : Body)
    (c : Calculations) (H : POST currentYear now (inr body) = Success c) :
  (In GoalBmiLow (r_warnings c) <-> r_bmi_goal_category c = "Abaixo do peso")
  /\ (In GoalBmiHigh (r_warnings c) -> r_bmi_goal_category c = "Obesidade")
  /\ (r_bmi_goal_category c = "Peso normal"
      \/ r_bmi_goal_category c = "Sobrepeso" ->
      warned is_goal_bmi c = false).
Proof.
  apply success_inv in H. destruct H as [_ ->].
  unfold warned. cbn [calculations r_warnings r_bmi_goal_category].
  assert (B : forall w, is_goal_bmi w = true ->
            (In w (warnings currentYear body) <-> In w (bmi_warning body))).
  { intros w Hw. rewrite In_warnings. split; [|auto].
    intros [Hr | [Hc | Hb]]; [| |exact Hb].
    - apply In_rate_warning in Hr. destruct w; discriminate.
    - apply In_calorie_warning in Hc. destruct w; discriminate. }
  rewrite !B by reflexivity. rewrite !In_bmi_warning.
  assert (W : existsb is_goal_bmi (warnings currentYear body)
              = (bmi_goal body <? 18.5) || (30 <? bmi_goal body)).
  { unfold warnings.
    rewrite !existsb_app, existsb_rate_warning, existsb_bmi_warning.
    rewrite (existsb_calorie_warning currentYear body) by reflexivity.
    cbn [is_goal_bmi].
    repeat match goal with
    | |- context [if ?c then _ else _] => destruct c
    end; reflexivity. }
  rewrite W. unfold getBMICategory.
  destruct (bmi_goal body <? 18.5) eqn:E1.
  { repeat split; try tauto; intuition discriminate. }
  destruct (30 <? bmi_goal body) eqn:E2.
  { assert (E3 : (bmi_goal body <? 30) = false)
      by now apply FloatOrder.ltb_asym.
    assert (E4 : (bmi_goal body <? 25) = false).
    { apply not_true_is_false. intros L.
      pose proof (FloatOrder.ltb_trans _ _ _ E2 L) as F. discriminate F. }
    rewrite E3, E4. repeat split; try tauto; intuition discriminate. }
  repeat split; try tauto; try (intuition discriminate).
  destruct (_ <? 25); [|destruct (_ <? 30)]; intuition discriminate.
Qed.

(** X16.  The warnings are at most one about the rate of change, then at most
    one about a calorie limit, then at most one about the goal BMI: never
    more than three, never too fast and too slow together. *)
Theorem warnings_shape (currentYear now : float) (body : Body)
    (c : Calculations) (H : POST currentYear now (inr body) = Success c) :
  exists rate limit bmi : list Warning,
    r_warnings c = (rate ++ limit ++ bmi)%list /\
    (List.length rate <= 1 /\ List.length limit <= 1 /\ List.length bmi <= 1)%nat /\
    forallb is_rate rate = true /\
    forallb is_calorie_limit limit = true /\
    forallb is_goal_bmi bmi = true.
Proof.
  apply success_inv in H. destruct H as [_ ->].
  exists (rate_warning body), (calorie_warning_pushed currentYear body),
    (bmi_warning body).
  split; [reflexivity|].
  unfold rate_warning, calorie_warning_pushed, calorie_warning, limited,
    bmi_warning.
  repeat match goal with |- context [if ?c then _ else _] => destruct c end;
    cbn; repeat split; lia.
Qed.

(** ** Percentages *)

Lemma own_entry_In {A} (table : list (string * A)) k a :
  own_entry table k = Some a -> In (k, a) table.
Proof.
  induction table as [|[k' a'] table IH]; cbn; [discriminate|].
  destruct (String.eqb_spec k' k) as [->|Hne].
  - intros [= ->]. now left.
  - intros H. right. now apply IH.
Qed.

(** X17.  Whenever the macro focus is not the name of a member of
    [Object.prototype], the three percentages returned are present and add up
    to 100; when it is such a name, none of the three is returned. *)
Theorem percentages_add_up (currentYear now : float) (body : Body)
    (c : Calculations) (H : POST currentYear now (inr body) = Success c) :
  (~ In (property_key (macro_focus body)) Object_prototype_keys ->
   exists p q r,
     percent_of (r_protein c) = Some p /\ percent_of (r_carbs c) = Some q /\
     percent_of (r_fat c) = Some r /\ p + q + r = 100) /\
  (In (property_key (macro_focus body)) Object_prototype_keys ->
   percent_of (r_protein c) = None /\ percent_of (r_carbs c) = None /\
   percent_of (r_fat c) = None).
Proof.
  apply success_inv in H. destruct H as [_ ->].
  cbn [calculations r_protein r_carbs r_fat macro percent_of].
  unfold percent, macros_percent, get.
  set (key := property_key (macro_focus body)).
  split.
  - intros Ho.
    assert (F : existsb (String.eqb key) Object_prototype_keys = false).
    { apply not_true_is_false. intros F. apply existsb_exists in F.
      destruct F as (k & Hk & Ek). apply String.eqb_eq in Ek. subst k.
      exact (Ho Hk). }
    rewrite F. destruct (own_entry MACRO_PRESETS key) as [p|] eqn:E.
    + apply own_entry_In in E. exists (protein p), (carbs p), (fat p).
      repeat split.
      cbn in E. repeat destruct E as [[= _ <-] | E]; try reflexivity.
      now elim E.
    + exists 30, 50, 20. repeat split.
  - intros Ho. cbn in Ho.
    repeat destruct Ho as [<- | Ho]; try (repeat split; reflexivity).
    now elim Ho.
Qed.


(** ** The statements above at sample requests *)



Lemma inherited_activity_level_gives_nan_example :
  r_tdee (calculations 2026 noon inherited_level_request) = nan /\
  r_daily_calories (calculations 2026 noon inherited_level_request) = nan.
Proof.
  destruct (inherited_activity_level_gives_nan 2026 noon
              inherited_level_request "toString"
              (calculations 2026 noon inherited_level_request) eq_refl)
    as (_ & T & D & _);
    [cbn; tauto | reflexivity | split; assumption].
Defined.

Lemma daily_calories_within_limits_example :
  r_daily_calories (calculations 2026 noon crash_diet_request) = 1200 /\
  warned is_calorie_limit (calculations 2026 noon crash_diet_request) = true.
Proof.
  destruct (daily_calories_within_limits 2026 noon crash_diet_request
              (calculations 2026 noon crash_diet_request) eq_refl eq_refl) as (_ & _ & W & _).
  split; [reflexivity | exact W].
Defined.

Lemma bmi_bands_example : getBMICategory 22.5 = "Peso normal".
Proof.
  apply (proj1 (proj2 (bmi_bands 22.5 eq_refl))). split; reflexivity.
Defined.

Lemma goal_bmi_warning_and_category_example :
  warned is_goal_bmi (calculations 2026 noon example_request) = false.
Proof.
  apply (proj2 (proj2 (goal_bmi_warning_and_category 2026 noon
                         example_request
                         (calculations 2026 noon example_request) eq_refl))).
  left. reflexivity.
Defined.

Lemma warnings_shape_example :
  exists rate limit bmi : list Warning,
    r_warnings (calculations 2026 noon crash_diet_request)
    = (rate ++ limit ++ bmi)%list /\
    (List.length rate <= 1 /\ List.length limit <= 1
     /\ List.length bmi <= 1)%nat /\
    forallb is_rate rate = true /\
    forallb is_calorie_limit limit = true /\
    forallb is_goal_bmi bmi = true.
Proof.
  exact (warnings_shape 2026 noon crash_diet_request
           (calculations 2026 noon crash_diet_request) eq_refl).
Defined.

Lemma percentages_add_up_example :
  exists p q r,
    percent_of (r_protein (calculations 2026 noon crash_diet_request)) = Some p
    /\ percent_of (r_carbs (calculations 2026 noon crash_diet_request)) = Some q
    /\ percent_of (r_fat (calculations 2026 noon crash_diet_request)) = Some r
    /\ p + q + r = 100.
Proof.
  apply (proj1 (percentages_add_up 2026 noon crash_diet_request
                  (calculations 2026 noon crash_diet_request) eq_refl)).
  cbn. intuition discriminate.
Defined.

End GoalCalculatorMore.

(* ===================================================================== *)
(** * Vision analyzer: every way through the handlers *)
(* ===================================================================== *)

Module VisionAnalyzerMore.
Import Js Upstream VisionSamples VisionRuns.

Section Parser.
Variable JSON_parse : string -> string + json.

Lemma read_total j name :
  j <> JNull -> exists v, read j name = inr v.
Proof. destruct j; cbn; eauto. intros N. now elim N. Qed.

Lemma null_or_not j : j = JNull \/ j <> JNull.
Proof. destruct j; auto; right; discriminate. Qed.

(** Every request takes one of the ways of [Run]. *)
Lemma POST_runs request_json completion :
  Run JSON_parse request_json completion
    (VisionAnalyzer.POST JSON_parse request_json completion).
Proof.
  unfold VisionAnalyzer.POST, VisionAnalyzer.attempt, bind.
  destruct request_json as [e | body]; [constructor|].
  destruct (falsy_str (image body)) eqn:Hi; [now constructor|].
  destruct completion as [e | response]; [now constructor|].
  unfold first_choice.
  destruct (choices response) as [|choice rest] eqn:Hc; [now constructor|].
  cbn [ret]. destruct (VisionAnalyzer.empty_content (content choice)) eqn:He.
  { eapply EmptyAnswer; eauto. }
  assert (Ht : exists text, content choice = Some text).
  { destruct (content choice); [eauto | discriminate He]. }
  destruct Ht as (text & Ht). rewrite Ht. unfold VisionAnalyzer.parse.
  destruct (JSON_parse text) as [message | j] eqn:Hp.
  { eapply NotJson; eauto. }
  cbn [ret]. destruct (null_or_not j) as [-> | Hn].
  { eapply NullJson; eauto. }
  destruct (read_total j "calorias_totais" Hn) as (calorias & Rc).
  destruct (read_total j "nome_do_prato" Hn) as (nome & Rn).
  rewrite Rc. destruct (falsy calorias) eqn:Fc; cbn [negb].
  - rewrite Rn. destruct (falsy nome) eqn:Fn.
    + eapply WithoutFields; eauto. now rewrite Fc, Fn.
    + eapply WithFields; eauto. now rewrite Fc, Fn.
  - eapply WithFields; eauto. now rewrite Fc.
Qed.

Lemma recover_facts e :
  let r := VisionAnalyzer.recover e in
  debug_of r = None /\ (forall j, r <> Analysis j) /\
  (status r = 500 \/ status r = 429)%Z /\
  (status r = 429%Z ->
   exists message, e = ErrorObject message /\
     rate_marker message = true /\ auth_marker message = false).
Proof.
  destruct e as [message|]; cbn [VisionAnalyzer.recover];
    [|cbn; repeat split; try discriminate; auto; discriminate].
  fold (auth_marker message) (rate_marker message) (quota_marker message).
  destruct (auth_marker message) eqn:A;
    [cbn; repeat split; try discriminate; auto; discriminate|].
  destruct (rate_marker message) eqn:R;
    [cbn; repeat split; try discriminate; eauto|].
  destruct (quota_marker message);
    cbn; repeat split; try discriminate; auto; discriminate.
Qed.

(** X18.  The handler of [src/unnamed/part_000] puts the model, finish reason
    and token usage in its answer only when the image was given, the call
    succeeded and the content of the first choice was null, empty, blank or
    the text of the empty object; the diagnostics are those of that answer. *)
Theorem diagnostics_only_for_empty_answers (request_json : Try Body)
    (completion : Try ChatCompletion) (d : Debug)
    (H : debug_of (VisionAnalyzer.POST JSON_parse request_json completion)
         = Some d) :
  exists body response choice rest,
    request_json = inr body /\ falsy_str (image body) = false /\
    completion = inr response /\ choices response = choice :: rest /\
    VisionAnalyzer.empty_content (content choice) = true /\
    d = {| debug_model := model response;
           debug_finish_reason := finish_reason choice;
           debug_usage := usage response |}.
Proof.
  pose proof (POST_runs request_json completion) as R.
  destruct R; cbn [debug_of] in H;
    try (rewrite (proj1 (recover_facts _)) in H); try discriminate H.
  injection H as <-. eauto 10.
Qed.

(** X19.  When the handler of [src/unnamed/part_000] answers 200, the body is
    what [JSON.parse] made of the content of the first choice, that content
    was neither empty, blank nor the text of the empty object, and the body
    is an object with a truthy [calorias_totais] or [nome_do_prato]. *)
Theorem success_is_the_parsed_answer (request_json : Try Body)
    (completion : Try ChatCompletion) (j : json)
    (H : VisionAnalyzer.POST JSON_parse request_json completion = Analysis j) :
  exists body response choice rest text members,
    request_json = inr body /\ completion = inr response /\
    choices response = choice :: rest /\ content choice = Some text /\
    text <> "" /\ trim text <> "" /\ text <> "{}" /\
    JSON_parse text = inr j /\ j = JObject members /\
    (falsy (last_member members "calorias_totais") = false \/
     falsy (last_member members "nome_do_prato") = false).
Proof.
  pose proof (POST_runs request_json completion) as R.
  destruct R as [ e c | body c Hi | body e Hi | body response Hi Hc
    | body response choice rest Hi Hc He
    | body response choice rest text message Hi Hc He Ht Hp
    | body response choice rest text Hi Hc He Ht Hp
    | body response choice rest text j' calorias nome Hi Hc He Ht Hp Rc Rn Hf
    | body response choice rest text j' calorias nome Hi Hc He Ht Hp Rc Rn Hf ]; try discriminate H;
    try (exfalso; exact (proj1 (proj2 (recover_facts _)) _ H)).
  injection H as ->.
  assert (E : text <> "" /\ trim text <> "" /\ text <> "{}").
  { rewrite Ht in He. cbn [VisionAnalyzer.empty_content] in He.
    apply orb_false_elim in He. destruct He as [He Hb].
    apply orb_false_elim in He. destruct He as [Hf' Htr].
    apply String.eqb_neq in Htr, Hb.
    repeat split; try assumption. intros ->. discriminate Hf'. }
  destruct j; cbn in Rc, Rn; try discriminate Rc;
    try (injection Rc as <-; injection Rn as <-; discriminate Hf).
  injection Rc as <-. injection Rn as <-.
  exists body, response, choice, rest, text, members.
  repeat split; try tauto.
  destruct (falsy (last_member members "calorias_totais")); auto.
Qed.

(** X20.  The handler of [src/unnamed/part_000] answers 200, 400, 429 or 500;
    it answers 429 only when an [Error] was thrown, by reading the request,
    by the call to the model or by [JSON.parse] on the content, whose message
    has a rate-limit marker and no authentication marker. *)
Theorem status_429_means_rate_limit (request_json : Try Body)
    (completion : Try ChatCompletion) :
  let r := VisionAnalyzer.POST JSON_parse request_json completion in
  (status r = 200 \/ status r = 400 \/ status r = 429 \/ status r = 500)%Z /\
  (status r = 429%Z ->
   exists message,
     rate_marker message = true /\ auth_marker message = false /\
     (request_json = inl (ErrorObject message) \/
      completion = inl (ErrorObject message) \/
      exists response choice rest text,
        completion = inr response /\ choices response = choice :: rest /\
        content choice = Some text /\ JSON_parse text = inl message)).
Proof.
  cbn zeta. pose proof (POST_runs request_json completion) as R.
  destruct R as [ e c | body c Hi | body e Hi | body response Hi Hc
    | body response choice rest Hi Hc He
    | body response choice rest text message Hi Hc He Ht Hp
    | body response choice rest text Hi Hc He Ht Hp
    | body response choice rest text j' calorias nome Hi Hc He Ht Hp Rc Rn Hf
    | body response choice rest text j' calorias nome Hi Hc He Ht Hp Rc Rn Hf ].
  - destruct (recover_facts e) as (_ & _ & F1 & F2). split; [tauto|].
    intros E. destruct (F2 E) as (m & -> & Hr & Ha). exists m. auto.
  - split; [cbn; auto | discriminate].
  - destruct (recover_facts e) as (_ & _ & F1 & F2). split; [tauto|].
    intros E. destruct (F2 E) as (m & -> & Hr & Ha). exists m. auto.
  - split; [right; right; right; reflexivity | intros E; discriminate E].
  - split; [cbn; auto | discriminate].
  - destruct (recover_facts (ErrorObject message)) as (_ & _ & F1 & F2).
    split; [tauto|].
    intros E. destruct (F2 E) as (m & [= <-] & Hr & Ha). exists message.
    repeat split; try assumption. right. right.
    exists response, choice, rest, text. auto.
  - split; [right; right; right; reflexivity | intros E; discriminate E].
  - split; [cbn; auto | discriminate].
  - split; [cbn; auto | discriminate].
Qed.

(** X21.  Whenever the handler of [src/unnamed/part_000] answers 200, the
    handler of [src/unnamed/part_001] gives the same answer to the same
    request and the same outcome of the call. *)
Theorem variants_agree_on_success (request_json : Try Body)
    (completion : Try ChatCompletion) (j : json)
    (H : VisionAnalyzer.POST JSON_parse request_json completion = Analysis j) :
  VisionAnalyzer_part_001.POST JSON_parse request_json completion = Analysis j.
Proof.
  pose proof (POST_runs request_json completion) as R.
  destruct R as [ e c | body c Hi | body e Hi | body response Hi Hc
    | body response choice rest Hi Hc He
    | body response choice rest text message Hi Hc He Ht Hp
    | body response choice rest text Hi Hc He Ht Hp
    | body response choice rest text j' calorias nome Hi Hc He Ht Hp Rc Rn Hf
    | body response choice rest text j' calorias nome Hi Hc He Ht Hp Rc Rn Hf ]; try discriminate H;
    try (exfalso; exact (proj1 (proj2 (recover_facts _)) _ H)).
  injection H as ->.
  unfold VisionAnalyzer_part_001.POST, VisionAnalyzer_part_001.attempt, bind,
    first_choice.
  rewrite Hi, Hc. cbn [ret]. rewrite Ht.
  assert (E : VisionAnalyzer_part_001.content_or_braces (Some text) = text).
  { rewrite Ht in He. cbn [VisionAnalyzer.empty_content] in He.
    destruct text; [discriminate He | reflexivity]. }
  rewrite E. unfold VisionAnalyzer_part_001.parse. rewrite Hp. cbn [ret].
  rewrite Rn. reflexivity.
Qed.

(** X22.  The handler of [src/unnamed/part_001] never answers 429 and never
    gives diagnostics; it answers 400 exactly when the image is missing, and
    every 500 carries the one general error text. *)
Theorem part_001_failures_are_generic (request_json : Try Body)
    (completion : Try ChatCompletion) :
  let r := VisionAnalyzer_part_001.POST JSON_parse request_json completion in
  debug_of r = None /\ status r <> 429%Z /\
  (status r = 400%Z <->
   exists body, request_json = inr body /\ falsy_str (image body) = true) /\
  (status r = 500%Z ->
   error_of r = Some "Ocorreu um erro ao analisar a imagem.").
Proof.
  cbn zeta.
  unfold VisionAnalyzer_part_001.POST, VisionAnalyzer_part_001.attempt, bind,
    first_choice, VisionAnalyzer_part_001.parse, read, ret, throw.
  destruct request_json as [e | body].
  { destruct e; cbn; repeat split; try discriminate;
      intros (b & Hb & _); discriminate. }
  destruct (falsy_str (image body)) eqn:Hi.
  { cbn. repeat split; try discriminate; eauto. }
  assert (N : ~ exists b, inr (A:=Thrown) body = inr b /\ falsy_str (image b) = true).
  { intros (b & [= <-] & Hb). congruence. }
  destruct completion as [e | response].
  { destruct e; cbn; repeat split; try discriminate; tauto. }
  destruct (choices response) as [|choice rest].
  { cbn; repeat split; try discriminate; tauto. }
  destruct (JSON_parse _) as [m | v].
  { cbn; repeat split; try discriminate; tauto. }
  destruct v; cbn; repeat split; try discriminate; tauto.
Qed.

(** X23.  In the handler of [src/unnamed/part_000], a content that parses to a
    value other than [null] that has neither a truthy [calorias_totais] nor
    a truthy [nome_do_prato] (an array, a number, an object without them) is
    answered 500 with the parsed value as [raw_response]. *)
Theorem answer_without_fields_is_500 (body : Body)
    (response : ChatCompletion) (choice : Choice) (rest : list Choice)
    (text : string) (j : json)
    (Hi : falsy_str (image body) = false)
    (Hc : choices response = choice :: rest)
    (Ht : content choice = Some text)
    (He : text <> "" /\ trim text <> "" /\ text <> "{}")
    (Hp : JSON_parse text = inr j)
    (Hn : j <> JNull)
    (Hf : forall members, j = JObject members ->
          falsy (last_member members "calorias_totais") = true /\
          falsy (last_member members "nome_do_prato") = true) :
  VisionAnalyzer.POST JSON_parse (inr body) (inr response)
  = Failure 500 "Resposta inválida da análise"
      (Some "A análise não retornou os campos nutricionais esperados.")
      None (Some j).
Proof.
  assert (E : VisionAnalyzer.empty_content (content choice) = false).
  { rewrite Ht. cbn [VisionAnalyzer.empty_content].
    destruct He as (E1 & E2 & E3).
    apply String.eqb_neq in E2, E3. rewrite E2, E3.
    destruct text; [now elim E1 | reflexivity]. }
  unfold VisionAnalyzer.POST, VisionAnalyzer.attempt, bind, first_choice.
  rewrite Hi, Hc. cbn [ret]. rewrite E, Ht.
  unfold VisionAnalyzer.parse. rewrite Hp. cbn [ret].
  destruct j; try (now elim Hn); try reflexivity.
  destruct (Hf members eq_refl) as [F1 F2]. cbn [read ret].
  rewrite F1. cbn [negb]. rewrite F2. reflexivity.
Qed.

End Parser.

(** ** The statements above at sample answers *)

Lemma diagnostics_only_for_empty_answers_example :
  exists body response choice rest,
    inr (A:=Thrown) photo = inr body /\ falsy_str (image body) = false /\
    inr (A:=Thrown) (answer (Some "{}")) = inr response /\
    choices response = choice :: rest /\
    VisionAnalyzer.empty_content (content choice) = true /\
    {| debug_model := "gpt-4o"; debug_finish_reason := "length";
       debug_usage := usage (answer (Some "{}")) |}
    = {| debug_model := model response;
         debug_finish_reason := finish_reason choice;
         debug_usage := usage response |}.
Proof.
  exact (diagnostics_only_for_empty_answers parse_braces (inr photo)
           (inr (answer (Some "{}"))) _ eq_refl).
Defined.

Lemma success_is_the_parsed_answer_example :
  VisionAnalyzer.POST parse_meal (inr photo) (inr (answer (Some meal_text)))
  = Analysis meal /\
  exists members,
    meal = JObject members /\
    (falsy (last_member members "calorias_totais") = false \/
     falsy (last_member members "nome_do_prato") = false).
Proof.
  assert (H : VisionAnalyzer.POST parse_meal (inr photo)
                (inr (answer (Some meal_text))) = Analysis meal)
    by reflexivity.
  split; [exact H|].
  destruct (success_is_the_parsed_answer parse_meal _ _ _ H)
    as (_ & _ & _ & _ & _ & members & _ & _ & _ & _ & _ & _ & _ & _ & E & F).
  exists members. split; assumption.
Defined.

Lemma status_429_means_rate_limit_example :
  exists message,
    rate_marker message = true /\ auth_marker message = false /\
    (inr (A:=Thrown) photo = inl (ErrorObject message) \/
     inl (B:=ChatCompletion) (ErrorObject quota_message)
     = inl (ErrorObject message) \/
     exists response choice rest text,
       inl (ErrorObject quota_message) = inr response /\
       choices response = choice :: rest /\
       content choice = Some text /\ parse_braces text = inl message).
Proof.
  apply (proj2 (status_429_means_rate_limit parse_braces (inr photo)
                  (inl (ErrorObject quota_message)))).
  reflexivity.
Defined.

Lemma variants_agree_on_success_example :
  VisionAnalyzer_part_001.POST parse_meal (inr photo)
    (inr (answer (Some meal_text)))
  = Analysis meal.
Proof.
  apply (variants_agree_on_success parse_meal). reflexivity.
Defined.

Lemma part_001_failures_are_generic_example :
  error_of (VisionAnalyzer_part_001.POST parse_braces (inr photo)
              (inl (ErrorObject quota_message)))
  = Some "Ocorreu um erro ao analisar a imagem.".
Proof.
  apply (proj2 (proj2 (proj2 (part_001_failures_are_generic parse_braces
           (inr photo) (inl (ErrorObject quota_message)))))).
  reflexivity.
Defined.

Lemma answer_without_fields_is_500_example :
  VisionAnalyzer.POST parse_meal (inr photo) (inr (answer (Some "[]")))
  = Failure 500 "Resposta inválida da análise"
      (Some "A análise não retornou os campos nutricionais esperados.")
      None (Some (JArray [])).
Proof.
  apply (answer_without_fields_is_500 parse_meal photo (answer (Some "[]"))
           _ [] "[]" (JArray []) eq_refl eq_refl eq_refl).
  - repeat split; discriminate.
  - reflexivity.
  - discriminate.
  - discriminate.
Defined.

End VisionAnalyzerMore.

(* ===================================================================== *)
(** * Ingredient recalculator: the prompt and the answers *)
(* ===================================================================== *)

Module RecalculatorFacts.
Import Js Upstream Recalculator.

(** ** Substrings *)

Lemma prefix_before n s post :
  String.prefix n s = true -> String.prefix n (s ++ post) = true.
Proof.
  revert s. induction n as [|d n IH]; intros s; [intros _; now destruct (s ++ post)|].
  destruct s as [|c s]; [discriminate|]. simpl.
  destruct (ascii_dec d c); [apply IH | discriminate].
Qed.

Lemma includes_eq needle s :
  includes needle s
  = String.prefix needle s
    || match s with
       | EmptyString => false
       | String _ rest => includes needle rest
       end.
Proof. destruct s; reflexivity. Qed.

Lemma prefix_self x : String.prefix x x = true.
Proof.
  induction x as [|c x IH]; [reflexivity|]. simpl.
  destruct (ascii_dec c c) as [_|N]; [exact IH | now elim N].
Qed.

Lemma includes_self x : includes x x = true.
Proof. now rewrite includes_eq, prefix_self. Qed.

Lemma includes_before needle s post :
  includes needle s = true -> includes needle (s ++ post) = true.
Proof.
  induction s as [|c s IH]; rewrite includes_eq, (includes_eq _ (_ ++ _));
    intros H; apply orb_true_iff in H; apply orb_true_iff.
  - destruct H as [H | H]; [|discriminate]. left. now apply prefix_before.
  - destruct H as [H | H]; [left; now apply prefix_before|].
    right. simpl. now apply IH.
Qed.

Lemma includes_after needle pre s :
  includes needle s = true -> includes needle (pre ++ s) = true.
Proof.
  intros H. induction pre as [|c pre IH]; [exact H|].
  rewrite includes_eq. simpl. rewrite IH. apply orb_true_r.
Qed.

Lemma includes_join sep items x :
  In x items -> includes x (join sep items) = true.
Proof.
  induction items as [|y items IH]; [intros []|].
  intros [-> | Hin].
  - destruct items as [|z items]; simpl.
    + apply includes_self.
    + apply includes_before, includes_self.
  - destruct items as [|z items]; [destruct Hin|].
    apply includes_after, includes_after, IH, Hin.
Qed.

(** X24.  The prompt sent to the model contains every ingredient of the list,
    each after its position counted from 1, a full stop and a space. *)
Theorem prompt_lists_every_ingredient (items : list string) (i : nat)
    (ing : string) (H : items !! i = Some ing) :
  includes (pretty (S i) ++ ". " ++ ing) (prompt items) = true.
Proof.
  unfold prompt. apply includes_after, includes_before, includes_join.
  apply list_elem_of_In, list_elem_of_lookup. exists i.
  unfold numbered. rewrite list_lookup_imap, H. reflexivity.
Qed.


(** ** The handler *)

Section Handler.
Variable JSON_parse : string -> string + json.
Variable create : string -> Try ChatCompletion.

(** X25.  A request whose [ingredientes] is missing, not an array or an empty
    array is answered 400, and the answer does not depend on the model. *)
Theorem empty_list_is_400 (ingredientes : Ingredientes)
    (other : string -> Try ChatCompletion)
    (H : ingredientes = NoIngredientes \/ ingredientes = NotAnArray
         \/ ingredientes = Items []) :
  POST JSON_parse create (inr ingredientes)
  = Failure 400 "Lista de ingredientes é obrigatória" None None None
  /\ POST JSON_parse other (inr ingredientes)
     = POST JSON_parse create (inr ingredientes).
Proof. destruct H as [-> | [-> | ->]]; split; reflexivity. Qed.

(** X26.  The recalculator answers 200 with a value exactly when the list is a
    non-empty array, the call made with the prompt of that list succeeded
    with a first choice, and the trimmed content of it parses to that value,
    which is not [null]. *)
Theorem recalculation_is_the_parsed_answer
    (request_json : Try Ingredientes) (j : json) :
  POST JSON_parse create request_json = Analysis j <->
  exists first rest completion choice others,
    request_json = inr (Items (first :: rest)) /\
    create (prompt (first :: rest)) = inr completion /\
    choices completion = choice :: others /\
    JSON_parse (responseText (content choice)) = inr j /\
    j <> JNull.
Proof.
  unfold POST, attempt, bind, first_choice, parse. split.
  - destruct request_json as [e | [| | [|first rest]]]; try discriminate.
    destruct (create _) as [e | completion] eqn:Hc; [discriminate|].
    destruct (choices completion) as [|choice others] eqn:Hch; [discriminate|].
    cbn [ret]. destruct (JSON_parse _) as [m | v] eqn:Hp; [discriminate|].
    cbn [ret]. destruct v; cbn; try discriminate; intros [= <-];
      exists first, rest, completion, choice, others;
      repeat split; try assumption; discriminate.
  - intros (first & rest & completion & choice & others
            & -> & Hc & Hch & Hp & Hn).
    rewrite Hc, Hch. cbn [ret]. rewrite Hp. cbn [ret].
    destruct j; try reflexivity. now elim Hn.
Qed.

(** X27.  The recalculator answers 200, 400 or 500 and never gives
    diagnostics; it answers 400 exactly for a missing, non-array or empty
    list, and every 500 carries its one error text. *)
Theorem recalculator_statuses (request_json : Try Ingredientes) :
  let r := POST JSON_parse create request_json in
  (status r = 200 \/ status r = 400 \/ status r = 500)%Z /\
  debug_of r = None /\
  (status r = 400%Z <->
   request_json = inr NoIngredientes \/ request_json = inr NotAnArray
   \/ request_json = inr (Items [])) /\
  (status r = 500%Z ->
   error_of r = Some "Erro ao recalcular valores nutricionais").
Proof.
  cbn zeta. unfold POST, attempt, bind, first_choice, parse.
  destruct request_json as [e | [| | [|first rest]]];
    try (cbn; repeat split; auto; try discriminate;
         intros [H | [H | H]]; discriminate H).
  destruct (create _) as [e | completion];
    [cbn; repeat split; auto; try discriminate;
     intros [H | [H | H]]; discriminate H|].
  destruct (choices completion) as [|choice others];
    [cbn; repeat split; auto; try discriminate;
     intros [H | [H | H]]; discriminate H|].
  cbn [ret]. destruct (JSON_parse _) as [m | v];
    [cbn; repeat split; auto; try discriminate;
     intros [H | [H | H]]; discriminate H|].
  destruct v; cbn; repeat split; auto; try discriminate;
    intros [H | [H | H]]; discriminate H.
Qed.

(** X28.  When the content of the model's answer is null or blank, the
    recalculator parses the empty text and answers 500 with the message of
    the parser as details. *)
Theorem blank_answer_is_500 (first : string) (rest : list string)
    (completion : ChatCompletion) (choice : Choice) (others : list Choice)
    (message : string)
    (Hparse : JSON_parse "" = inl message)
    (Hc : create (prompt (first :: rest)) = inr completion)
    (Hch : choices completion = choice :: others)
    (Hb : content choice = None \/
          exists s, content choice = Some s /\ trim s = "") :
  POST JSON_parse create (inr (Items (first :: rest)))
  = Failure 500 "Erro ao recalcular valores nutricionais" (Some message)
      None None.
Proof.
  assert (E : responseText (content choice) = "").
  { destruct Hb as [-> | (s & -> & Hs)]; [reflexivity | exact Hs]. }
  unfold POST, attempt, bind, first_choice, parse.
  rewrite Hc, Hch. cbn [ret]. rewrite E, Hparse. reflexivity.
Qed.

End Handler.

(** The prompt and the handler at a salad. *)
Lemma prompt_lists_every_ingredient_example :
  includes "2. tomate 100g" (prompt salad) = true.
Proof. exact (prompt_lists_every_ingredient salad 1 "tomate 100g" eq_refl). Defined.

Lemma empty_list_is_400_example :
  POST parse_object (answers (Some "{}")) (inr (Items []))
  = Failure 400 "Lista de ingredientes é obrigatória" None None None.
Proof.
  apply (empty_list_is_400 parse_object (answers (Some "{}")) (Items [])
           (answers None)).
  right. right. reflexivity.
Defined.

Lemma recalculation_is_the_parsed_answer_example :
  POST parse_object (answers (Some " {} ")) (inr (Items salad))
  = Analysis (JObject []).
Proof.
  apply (proj2 (recalculation_is_the_parsed_answer parse_object
                  (answers (Some " {} ")) (inr (Items salad)) (JObject []))).
  eexists _, _, _, _, _. repeat split; try reflexivity. discriminate.
Defined.

Lemma recalculator_statuses_example :
  status (POST parse_object (answers (Some "null")) (inr (Items salad)))
  = 500%Z /\
  error_of (POST parse_object (answers (Some "null")) (inr (Items salad)))
  = Some "Erro ao recalcular valores nutricionais".
Proof.
  split; [reflexivity|].
  apply (proj2 (proj2 (proj2 (recalculator_statuses parse_object
           (answers (Some "null")) (inr (Items salad)))))).
  reflexivity.
Defined.

Lemma blank_answer_is_500_example :
  POST parse_object (answers (Some "  ")) (inr (Items salad))
  = Failure 500 "Erro ao recalcular valores nutricionais"
      (Some "Unexpected end of JSON input") None None.
Proof.
  apply (blank_answer_is_500 parse_object (answers (Some "  "))
           "alface" ["tomate 100g"; "azeite 1 colher"] _ _ []
           "Unexpected end of JSON input" eq_refl eq_refl eq_refl).
  right. exists "  ". split; reflexivity.
Defined.

End RecalculatorFacts.

(* ===================================================================== *)
(** * Goal calculator over any body: the guard on [goal_weeks] *)
(* ===================================================================== *)

Module GoalCalculatorJsonFacts.
Import Js Upstream JsValue GoalCalculatorJson.
Local Open Scope float_scope.

Section Engine.
Variable StringToNumber : string -> float.
Variable NumberToString : float -> string.
Variable null_body_message : string.

Lemma destructure_json_of (b : GoalCalculator.Body) :
  destructure (json_of b) = body_of b.
Proof.
  destruct b as [[g|] [y|] [w|] [h|] [a|] [gt|] [gw|] [wk|] [mf|]];
    reflexivity.
Qed.

Lemma handle_body_of (currentYear now : float) (b : GoalCalculator.Body) :
  handle StringToNumber NumberToString currentYear now (body_of b)
  = GoalCalculator.handle currentYear now b.
Proof.
  destruct b as [[g|] [y|] [w|] [h|] [a|] gt [gw|] [wk|] [mf|]];
    reflexivity.
Qed.

(** On a body whose fields have the types of the interface the handler
    over any body is the handler of the first embedding. *)
Lemma typed_bodies_agree (currentYear now : float) (b : GoalCalculator.Body) :
  POST StringToNumber NumberToString null_body_message currentYear now
    (inr (json_of b))
  = GoalCalculator.POST currentYear now (inr b).
Proof.
  unfold POST, json_of. fold (json_of b).
  rewrite destructure_json_of. apply handle_body_of.
Qed.

(** The check [!goal_weeks] stops what is falsy: an absent field, [null],
    [false], the empty text, a number that is zero or NaN. *)
Lemma falsy_goal_weeks_is_rejected (currentYear now : float)
    (members : list (string * json)) :
  falsy (field (JObject members) "goal_weeks") = true ->
  exists error,
    POST StringToNumber NumberToString null_body_message currentYear now
      (inr (JObject members))
    = GoalCalculator.Failure 400 error None.
Proof.
  intros F. unfold POST, handle. cbn [destructure goal_weeks].
  rewrite F, orb_true_r. destruct (_ || _); eauto.
Qed.

(** A [goal_weeks] that is a number and reaches the division is not zero. *)
Lemma number_goal_weeks_is_not_zero (currentYear now : float) (body : json)
    (c : GoalCalculator.Calculations) (w : float) :
  POST StringToNumber NumberToString null_body_message currentYear now
    (inr body) = GoalCalculator.Success c ->
  field body "goal_weeks" = Some (JNumber w) ->
  (w =? 0) = false /\ is_nan w = false.
Proof.
  intros H E. destruct body as [ | | | | |members]; try discriminate.
  unfold POST, handle in H. cbn [destructure goal_weeks] in H.
  rewrite E in H. cbn [falsy] in H. unfold falsy_number in H.
  destruct (_ || _) in H; [discriminate|].
  destruct (falsy (goal_weight_kg _)) in H; [discriminate|]. cbn [orb] in H.
  destruct (is_nan w); [discriminate|]. cbn [orb] in H.
  destruct (is_zero w) eqn:Z; [discriminate|]. split; [exact Z | reflexivity].
Qed.

(** C10.  The claim is that [kg_per_week] is never the result of a division
    by zero.  The check [!goal_weeks] tests the field as the body carries
    it, and the division converts it to a number: the text ["0"] is truthy
    and its number is zero.  The request is answered 200, with
    [kg_per_week] the quotient [-5 / 0], that is [-Infinity]; the same
    request with the number [0] is answered 400. *)
Theorem text_zero_goal_weeks_is_divided_by
    (Hzero : StringToNumber "0" = 0) :
  let body := body_with_weeks (JString "0") in
  let r := POST StringToNumber NumberToString null_body_message 2026
             GoalCalculator.noon (inr body) in
  falsy (field body "goal_weeks") = false /\
  ToNumber StringToNumber NumberToString (field body "goal_weeks") = 0 /\
  GoalCalculator.kg_per_week (operands StringToNumber NumberToString (destructure body))
  = -5 / 0 /\
  (exists c, r = GoalCalculator.Success c
             /\ GoalCalculator.r_kg_per_week c = neg_infinity
             /\ GoalCalculator.r_warnings c
                = [GoalCalculator.TooFast infinity;
                   GoalCalculator.CaloriesAtMinimum 1500]) /\
  POST StringToNumber NumberToString null_body_message 2026
    GoalCalculator.noon (inr (body_with_weeks (JNumber 0)))
  = GoalCalculator.Failure 400
      "Campos de meta faltando: goal_weight_kg, goal_weeks" None.
Proof.
  cbn zeta.
  assert (N : ToNumber StringToNumber NumberToString
                (field (body_with_weeks (JString "0")) "goal_weeks") = 0)
    by exact Hzero.
  assert (O : operands StringToNumber NumberToString
                (destructure (body_with_weeks (JString "0")))
              = GoalCalculator.zero_weeks_request).
  { unfold operands. cbn [destructure goal_weeks]. rewrite N. reflexivity. }
  split; [reflexivity|]. split; [exact N|].
  split; [rewrite O; reflexivity|].
  split; [|reflexivity].
  eexists. split.
  - unfold POST, body_with_weeks, handle.
    fold (body_with_weeks (JString "0")). rewrite O. vm_compute. reflexivity.
  - split; vm_compute; reflexivity.
Qed.

End Engine.

(** C10 with the conversion of the samples. *)
Lemma text_zero_goal_weeks_is_divided_by_example :
  exists c,
    POST number_of_sample text_of_sample "" 2026 GoalCalculator.noon
      (inr (body_with_weeks (JString "0")))
    = GoalCalculator.Success c
    /\ GoalCalculator.r_kg_per_week c = neg_infinity.
Proof.
  destruct (text_zero_goal_weeks_is_divided_by number_of_sample
              text_of_sample "" eq_refl) as (_ & _ & _ & (c & Hc & Hk & _) & _).
  exists c. split; assumption.
Defined.

End GoalCalculatorJsonFacts.

(* ===================================================================== *)
(** * Profile store over any body: keys, reads and stored values *)
(* ===================================================================== *)

Module ProfileStoreJsonFacts.
Import Js Upstream JsValue ProfileStoreJson.
Local Open Scope float_scope.

(** ** The map *)

Lemma same_key_string k s : same_key k (KString s) = true <-> k = KString s.
Proof.
  destruct k; cbn; try (split; discriminate).
  rewrite String.eqb_eq. split; [now intros -> | now intros [= ->]].
Qed.

Lemma same_string_key s k : same_key (KString s) k = true <-> k = KString s.
Proof.
  destruct k; cbn; try (split; discriminate).
  rewrite String.eqb_eq. split; [now intros -> | now intros [= ->]].
Qed.



Lemma Map_get_set_string profiles k p s :
  Map_get (Map_set profiles k p) (KString s)
  = if same_key k (KString s) then Some p else Map_get profiles (KString s).
Proof.
  induction profiles as [|[k' p'] rest IH]; cbn [Map_set Map_get].
  - reflexivity.
  - destruct (same_key k' k) eqn:E; cbn [Map_get].
    + destruct (same_key k' (KString s)) eqn:E1.
      * apply same_key_string in E1. subst k'.
        apply same_string_key in E. subst k. cbn. now rewrite String.eqb_refl.
      * destruct (same_key k (KString s)) eqn:E2; [|reflexivity].
        apply same_key_string in E2. subst k.
        apply same_key_string in E. subst k'. cbn in E1.
        now rewrite String.eqb_refl in E1.
    + rewrite IH. destruct (same_key k (KString s)) eqn:E2; [|reflexivity].
      apply same_key_string in E2. subst k. now rewrite E.
Qed.





(** An entry of the map after [set]: an entry of the map before, or the
    value set, under the key given or under the key it replaced. *)
Lemma In_Map_set profiles k p e :
  In e (Map_set profiles k p) ->
  In e profiles \/ (snd e = p /\ (fst e = k \/ same_key (fst e) k = true)).
Proof.
  induction profiles as [|[k' p'] rest IH]; cbn [Map_set].
  - intros [<- | []]. right. split; [reflexivity | now left].
  - destruct (same_key k' k) eqn:E; cbn [In].
    + intros [<- | H]; [|left; now right].
      right. split; [reflexivity | now right].
    + intros [<- | H]; [left; now left|].
      destruct (IH H) as [? | ?]; [left; now right | now right].
Qed.

Lemma Map_get_In profiles k p :
  Map_get profiles k = Some p ->
  exists k', In (k', p) profiles /\ same_key k' k = true.
Proof.
  induction profiles as [|[k' p'] rest IH]; cbn [Map_get]; [discriminate|].
  destruct (same_key k' k) eqn:E.
  - intros [= ->]. exists k'. split; [now left | exact E].
  - intros H. destruct (IH H) as (k0 & Hin & Hk). exists k0.
    split; [now right | exact Hk].
Qed.

Lemma key_of_string id s : key_of id = KString s <-> id = JString s.
Proof.
  destruct id; cbn; split; intros H; try discriminate; congruence.
Qed.

(** ** The handler *)

Section Engine.
Variable StringToNumber : string -> float.
Variable NumberToString : float -> string.
Variable null_body_message : string.

Abbreviation validate := (validate StringToNumber NumberToString).
Abbreviation handle := (handle StringToNumber NumberToString).
Abbreviation POST := (POST StringToNumber NumberToString null_body_message).
Abbreviation serve := (serve StringToNumber NumberToString null_body_message).
Abbreviation after := (after StringToNumber NumberToString null_body_message).
Abbreviation writes_to := (writes_to StringToNumber NumberToString).
Abbreviation number := (number StringToNumber NumberToString).
Abbreviation percent_sum := (percent_sum StringToNumber NumberToString).





Lemma after_last requests r : after (requests ++ [r]) = serve (after requests) r.
Proof. unfold ProfileStoreJson.after. now rewrite fold_left_app. Qed.


Lemma validate_checked y b :
  validate y b = None -> checked StringToNumber NumberToString (make_profile b).
Proof.
  unfold ProfileStoreJson.validate. cbv zeta.
  destruct (falsy (user_id b)) eqn:E1; [discriminate|].
  destruct (falsy (gender b)) eqn:E2; [discriminate|].
  destruct (falsy (birth_year b)) eqn:E3; [discriminate|].
  destruct (falsy (weight_kg b)) eqn:E4; [discriminate|].
  destruct (falsy (height_cm b)) eqn:E5; [discriminate|].
  destruct (number (birth_year b) <? 1920) eqn:E6; [discriminate|].
  destruct (y <? number (birth_year b)) eqn:E7; [discriminate|].
  destruct (y - number (birth_year b) <? 13) eqn:E8; [discriminate|].
  destruct (number (weight_kg b) <? 30) eqn:E9; [discriminate|].
  destruct (200 <? number (weight_kg b)) eqn:E10; [discriminate|].
  destruct (number (height_cm b) <? 100) eqn:E11; [discriminate|].
  destruct (250 <? number (height_cm b)) eqn:E12; [discriminate|].
  destruct (is_100 (percent_sum b)) eqn:E13; [|discriminate].
  intros _. constructor; try assumption.
  cbn. destruct (notifications_enabled b); discriminate.
Qed.

Lemma serve_sound profiles r :
  Forall (sound_entry StringToNumber NumberToString) profiles ->
  Forall (sound_entry StringToNumber NumberToString) (serve profiles r).
Proof.
  intros Inv. destruct r as [q | y [m | body]];
    cbn [ProfileStoreJson.serve ProfileStoreJson.POST snd]; try assumption.
  destruct body as [ | | | | |members]; try assumption.
  unfold ProfileStoreJson.handle.
  destruct (validate y (destructure (JObject members))) as [e|] eqn:Hv;
    [assumption|].
  destruct (user_id (destructure (JObject members))) as [id|] eqn:Hid;
    [|assumption].
  cbn [snd]. apply List.Forall_forall. intros [k p] He.
  destruct (In_Map_set _ _ _ _ He) as [H | [Hp Hk]].
  - rewrite List.Forall_forall in Inv. now apply Inv.
  - cbn [fst snd] in Hp, Hk. subst p.
    split; cbn [fst snd]; [exact (validate_checked _ _ Hv)|].
    intros s. change (user_id (make_profile (destructure (JObject members))))
      with (user_id (destructure (JObject members))). rewrite Hid.
    assert (R : Some id = Some (JString s) <-> key_of id = KString s).
    { rewrite key_of_string. split; congruence. }
    rewrite R. destruct Hk as [-> | Hk]; [reflexivity|].
    split.
    + intros ->. now apply same_string_key in Hk.
    + intros E. rewrite E in Hk. now apply same_key_string in Hk.
Qed.

Lemma after_sound requests :
  Forall (sound_entry StringToNumber NumberToString) (after requests).
Proof.
  induction requests as [|r requests IH] using rev_ind.
  - constructor.
  - rewrite after_last. now apply serve_sound.
Qed.


(** ** Bodies with the types of the interface *)

Lemma validate_body_of y b :
  validate y (body_of b)
  = option_map error_of_typed (ProfileStore.validate y b).
Proof.
  destruct b as [[id|] [g|] [by_|] [w|] [h|] a gt gw wk dc mf [p|] [c|] [f|]
                   pg cg fg ne]; try reflexivity;
    unfold ProfileStoreJson.validate, ProfileStore.validate,
      ProfileStore.percent_sum, ProfileStoreJson.percent_sum,
      ProfileStoreJson.number, ToNumber;
    cbn [body_of option_map user_id gender birth_year weight_kg height_cm
         protein_percent carbs_percent fat_percent
         ProfileStore.user_id ProfileStore.gender ProfileStore.birth_year
         ProfileStore.weight_kg ProfileStore.height_cm
         ProfileStore.protein_percent ProfileStore.carbs_percent
         ProfileStore.fat_percent falsy falsy_str falsy_num to_number
         ToPrimitive number_of plus is_100];
    repeat match goal with
           | |- context [if ?c then _ else _] => destruct c
           end; reflexivity.
Qed.

Lemma make_profile_body_of b :
  make_profile (body_of b) = body_of (ProfileStore.make_profile b).
Proof. destruct b as [? ? ? ? ? ? ? ? ? ? ? ? ? ? ? ? ? [ne|]]; reflexivity. Qed.

(** On a body whose fields have the types of the interface, and on maps
    that agree, the write over any body answers what the write of the first
    embedding answers, and the maps agree afterwards. *)
Lemma typed_writes_agree y b typed profiles :
  agree typed profiles ->
  fst (handle y (body_of b) profiles)
  = response_of_typed (fst (ProfileStore.handle y b typed))
  /\ agree (snd (ProfileStore.handle y b typed))
       (snd (handle y (body_of b) profiles)).
Proof.
  intros A. unfold ProfileStoreJson.handle, ProfileStore.handle.
  rewrite validate_body_of.
  destruct (ProfileStore.validate y b) as [e|]; cbn [option_map fst snd];
    [split; [reflexivity | exact A]|].
  destruct b as [[k|] ? ? ? ? ? ? ? ? ? ? ? ? ? ? ? ? ne];
    cbn [body_of user_id ProfileStore.user_id option_map fst snd key_of];
    [|split; [reflexivity | exact A]].
  unfold Map_has. rewrite (A k).
  split.
  - rewrite make_profile_body_of.
    destruct (typed !! k); reflexivity.
  - intros k'. rewrite Map_get_set_string. cbn [same_key].
    destruct (String.eqb_spec k k') as [->|Hne].
    + rewrite lookup_insert_eq. cbn [option_map].
      now rewrite <- make_profile_body_of.
    + rewrite lookup_insert_ne by assumption. apply A.
Qed.

(** On maps that agree a read answers the same. *)
Lemma typed_reads_agree q typed profiles :
  agree typed profiles ->
  GET q profiles = response_of_typed (ProfileStore.GET q typed).
Proof.
  intros A. unfold GET, ProfileStore.GET.
  destruct (or_str _ _) as [id|]; [|reflexivity].
  destruct (falsy_string id); [reflexivity|].
  rewrite (A id). destruct (typed !! id); reflexivity.
Qed.

(** A read returns a profile whose [user_id] is the string it was asked
    for. *)
Lemma read_has_text_user_id requests q p :
  GET q (after requests) = Found p ->
  exists k,
    or_str (ProfileStore.header_x_user_id q) (ProfileStore.param_userId q)
    = Some k
    /\ user_id p = Some (JString k).
Proof.
  unfold GET. destruct (or_str _ _) as [k|]; [|discriminate].
  destruct (falsy_string k); [discriminate|].
  destruct (Map_get _ _) as [p'|] eqn:G; [|discriminate].
  intros [= ->]. exists k. split; [reflexivity|].
  destruct (Map_get_In _ _ _ G) as (k' & Hin & Hk).
  apply same_key_string in Hk. subst k'.
  pose proof (after_sound requests) as F. rewrite List.Forall_forall in F.
  destruct (F _ Hin) as [_ S]. now apply S.
Qed.

(** C4.  The claim is that a profile that passes the checks of the write
    is what a read with the same [user_id] returns.  The write tests
    [user_id] for truthiness only and uses it as the key of the map as it
    comes, while a read looks up the text of a header or of a query
    parameter.  A write whose [user_id] is the number 5 passes every check
    and is answered 201 with the profile stored under the number 5; no
    read finds it, whatever its header and its query: the read for the text
    ["5"] is answered 404.  After any sequence of requests, a profile whose
    [user_id] is not a string is returned by no read. *)
Theorem number_user_id_is_never_read (q : ProfileStore.Query)
    (requests : list Request) :
  let body := body_with (JNumber 5) (JNumber 62) (JNumber 168) in
  let p :=
    {| user_id := Some (JNumber 5);
       gender := Some (JString "feminino");
       birth_year := Some (JNumber 1990);
       weight_kg := Some (JNumber 62);
       height_cm := Some (JNumber 168);
       activity_level := Some (JString "levemente_ativo");
       goal_type := Some (JString "perder");
       goal_weight_kg := Some (JNumber 58);
       goal_weeks := Some (JNumber 12);
       daily_calories := Some (JNumber 1700);
       macro_focus := Some (JString "equilibrado");
       protein_percent := Some (JNumber 30);
       carbs_percent := Some (JNumber 50);
       fat_percent := Some (JNumber 20);
       protein_grams := Some (JNumber 127.5);
       carbs_grams := Some (JNumber 212.5);
       fat_grams := Some (JNumber 37.8);
       notifications_enabled := Some (JBool true) |} in
  validate 2026 (destructure body) = None /\
  POST 2026 (inr body) []
  = (Saved 201 p "Perfil criado com sucesso", [(KNumber 5, p)]) /\
  (exists st e, GET q (snd (POST 2026 (inr body) [])) = Failure st e) /\
  GET (ProfileStore.by_header "5") (snd (POST 2026 (inr body) []))
  = Failure 404 ProfileNotFound /\
  (forall p', GET q (after requests) = Found p' ->
     exists k, user_id p' = Some (JString k)).
Proof.
  cbn zeta. split; [reflexivity|]. split; [reflexivity|].
  split; [|split; [reflexivity|]].
  - destruct q as [[[|c h]|] [[|c' p]|]]; eexists _, _; reflexivity.
  - intros p' H. destruct (read_has_text_user_id _ _ _ H) as (k & _ & Hk).
    eauto.
Qed.




End Engine.

(** ** The statements above at sample requests, with the conversions of the
       samples *)




End ProfileStoreJsonFacts.
